(** * Stable hashing and set comparison of ledger entries

    A Rocq model of [beancount/core/compare.py]: the stable hash of a
    namedtuple ([stable_hash_namedtuple], [hash_entry]), the digest index
    built over a list of entries ([hash_entries]) and the three set
    comparisons built on it ([compare_entries], [includes_entries],
    [excludes_entries]). *)

From Stdlib Require Import ZArith Ascii String.
From Stdlib Require OrderedTypeEx.
From stdpp Require Import gmap strings list fin_maps sorting.

Local Open Scope string_scope.
Local Open Scope list_scope.

Set Warnings "-register-all,-clear-no-such-hyp".

(** ** MD5 (RFC 1321), the digest behind [hashlib.md5]

    Python strings are encoded to bytes before they reach the hash object;
    a Rocq [string] is already a sequence of bytes, so [.encode()] is the
    identity of the model. *)
Module MD5.

Local Open Scope Z_scope.

Definition mask32 (x : Z) : Z := x mod 2 ^ 32.

Definition rotl32 (x c : Z) : Z :=
  mask32 (Z.lor (Z.shiftl x c) (Z.shiftr (mask32 x) (32 - c))).

Definition shifts : list Z :=
  [ 7; 12; 17; 22;  7; 12; 17; 22;  7; 12; 17; 22;  7; 12; 17; 22;
    5;  9; 14; 20;  5;  9; 14; 20;  5;  9; 14; 20;  5;  9; 14; 20;
    4; 11; 16; 23;  4; 11; 16; 23;  4; 11; 16; 23;  4; 11; 16; 23;
    6; 10; 15; 21;  6; 10; 15; 21;  6; 10; 15; 21;  6; 10; 15; 21 ].

Definition sines : list Z :=
  [ 0xd76aa478; 0xe8c7b756; 0x242070db; 0xc1bdceee;
    0xf57c0faf; 0x4787c62a; 0xa8304613; 0xfd469501;
    0x698098d8; 0x8b44f7af; 0xffff5bb1; 0x895cd7be;
    0x6b901122; 0xfd987193; 0xa679438e; 0x49b40821;
    0xf61e2562; 0xc040b340; 0x265e5a51; 0xe9b6c7aa;
    0xd62f105d; 0x02441453; 0xd8a1e681; 0xe7d3fbc8;
    0x21e1cde6; 0xc33707d6; 0xf4d50d87; 0x455a14ed;
    0xa9e3e905; 0xfcefa3f8; 0x676f02d9; 0x8d2a4c8a;
    0xfffa3942; 0x8771f681; 0x6d9d6122; 0xfde5380c;
    0xa4beea44; 0x4bdecfa9; 0xf6bb4b60; 0xbebfbc70;
    0x289b7ec6; 0xeaa127fa; 0xd4ef3085; 0x04881d05;
    0xd9d4d039; 0xe6db99e5; 0x1fa27cf8; 0xc4ac5665;
    0xf4292244; 0x432aff97; 0xab9423a7; 0xfc93a039;
    0x655b59c3; 0x8f0ccc92; 0xffeff47d; 0x85845dd1;
    0x6fa87e4f; 0xfe2ce6e0; 0xa3014314; 0x4e0811a1;
    0xf7537e82; 0xbd3af235; 0x2ad7d2bb; 0xeb86d391 ].

(** The four 32-bit chaining words. *)
Record state := State { sA : Z; sB : Z; sC : Z; sD : Z }.

Definition init : state :=
  State 0x67452301 0xefcdab89 0x98badcfe 0x10325476.

Definition bytes_of (s : string) : list Z :=
  List.map (fun a => Z.of_N (N_of_ascii a)) (list_ascii_of_string s).

(** Little-endian bytes of [x], [n] of them. *)
Fixpoint le_bytes (n : nat) (x : Z) : list Z :=
  match n with
  | O => []
  | S n' => x mod 256 :: le_bytes n' (x / 256)
  end.

Definition pad (msg : list Z) : list Z :=
  let len := Z.of_nat (length msg) in
  let zeros := Z.to_nat ((55 - len) mod 64) in
  msg ++ 0x80 :: List.repeat 0 zeros ++ le_bytes 8 (8 * len).

Fixpoint word_of_le (bs : list Z) : Z :=
  match bs with
  | [] => 0
  | b :: rest => b + 256 * word_of_le rest
  end.

(** Split a 64-byte block into its sixteen little-endian words. *)
Fixpoint words (n : nat) (bs : list Z) : list Z :=
  match n with
  | O => []
  | S n' => word_of_le (firstn 4 bs) :: words n' (skipn 4 bs)
  end.

Definition round (m : list Z) (st : state) (i : Z) : state :=
  let '(State a b c d) := st in
  let '(f, g) :=
    if i <? 16 then (Z.lor (Z.land b c) (Z.land (mask32 (Z.lnot b)) d), i)
    else if i <? 32 then (Z.lor (Z.land d b) (Z.land (mask32 (Z.lnot d)) c),
                          (5 * i + 1) mod 16)
    else if i <? 48 then (Z.lxor b (Z.lxor c d), (3 * i + 5) mod 16)
    else (Z.lxor c (Z.lor b (mask32 (Z.lnot d))), (7 * i) mod 16) in
  let f' := mask32 (f + a + nth (Z.to_nat i) sines 0 + nth (Z.to_nat g) m 0) in
  State d (mask32 (b + rotl32 f' (nth (Z.to_nat i) shifts 0))) b c.

Definition block (st : state) (bs : list Z) : state :=
  let m := words 16 bs in
  let '(State a b c d) := fold_left (round m) (List.map Z.of_nat (seq 0 64)) st in
  State (mask32 (sA st + a)) (mask32 (sB st + b))
        (mask32 (sC st + c)) (mask32 (sD st + d)).

Fixpoint blocks (n : nat) (st : state) (bs : list Z) : state :=
  match n with
  | O => st
  | S n' => blocks n' (block st (firstn 64 bs)) (skipn 64 bs)
  end.

Definition hex_digit (d : Z) : ascii :=
  ascii_of_N (Z.to_N (if d <? 10 then 48 + d else 87 + d)).

Fixpoint hex_of_bytes (bs : list Z) : string :=
  match bs with
  | [] => EmptyString
  | b :: rest => String (hex_digit (b / 16)) (String (hex_digit (b mod 16)) (hex_of_bytes rest))
  end.

(** [hashlib.md5(s).hexdigest()]. *)
Definition hexdigest (s : string) : string :=
  let bs := pad (bytes_of s) in
  let '(State a b c d) := blocks (length bs / 64) init bs in
  hex_of_bytes (le_bytes 4 a ++ le_bytes 4 b ++ le_bytes 4 c ++ le_bytes 4 d).

End MD5.

(** ** Python values

    The code inspects a value only through [isinstance(_, (list, set))],
    [isinstance(_, tuple)], iteration, [_fields] and [str()].  A value is
    therefore a list or a set (its elements in iteration order), a
    namedtuple (type name and fields in declaration order) or any other
    object, which is represented by the texts of its [str()] and [repr()].
    A plain tuple, which has no [_fields], is none of these: as an element
    of a list it makes the code raise, and as a field value it is an object
    like any other. *)
Inductive coll_kind : Type := KList | KSet.

Inductive value : Type :=
| PyObj (str_text repr_text : string)
| PyColl (kind : coll_kind) (elems : list value)
| PyTuple (typename : string) (fields : list (string * value)).

Abbreviation PyList := (PyColl KList).
Abbreviation PySet := (PyColl KSet).

(** A namedtuple instance: [type(r).__name__] and [zip(r._fields, r)]. *)
Record record := MkRecord { typename_of : string; fields_of : list (string * value) }.

Definition value_of (r : record) : value := PyTuple (typename_of r) (fields_of r).

(** [repr()]: containers and namedtuples render their members with [repr]. *)
Fixpoint py_repr (v : value) : string :=
  match v with
  | PyObj _ r => r
  | PyColl KList xs => "[" +:+ String.concat ", " (List.map py_repr xs) +:+ "]"
  | PyColl KSet [] => "set()"
  | PyColl KSet xs => "{" +:+ String.concat ", " (List.map py_repr xs) +:+ "}"
  | PyTuple name fs =>
      name +:+ "("
        +:+ String.concat ", "
              (List.map (fun nv => match nv with (n, x) => n +:+ "=" +:+ py_repr x end) fs)
        +:+ ")"
  end.

(** [str()]: lists, sets and namedtuples have no [__str__] of their own. *)
Definition py_str (v : value) : string :=
  match v with
  | PyObj s _ => s
  | _ => py_repr v
  end.

(** A few scalars.  [py_text] is a [str] object whose characters need no
    escaping; [py_atom] an object with equal [str()] and [repr()], such as
    an [int] or [None]. *)
Definition py_text (s : string) : value := PyObj s ("'" +:+ s +:+ "'").
Definition py_atom (s : string) : value := PyObj s s.

(** ** [sorted]

    Python's [sorted] compares keys with [<] only and is stable.  Insertion
    from the right, which moves an element past exactly the elements whose
    key is strictly smaller, computes the same list. *)
Section Sorted.
Context {A K : Type} (key : A → K) (lt : K → K → bool).

Fixpoint sorted_insert (x : A) (l : list A) : list A :=
  match l with
  | [] => [x]
  | y :: l' => if lt (key y) (key x) then y :: sorted_insert x l' else x :: y :: l'
  end.

Definition py_sorted (l : list A) : list A := foldr sorted_insert [] l.

(** [a] may stand before [b] in a sorted list: [key b < key a] is false. *)
Definition in_order (a b : A) : Prop := lt (key b) (key a) = false.
End Sorted.

(** A strict total order on sort keys, given by its boolean test. *)
Class StrictTotal {K : Type} (lt : K → K → bool) : Prop := {
  lt_irrefl : ∀ a, lt a a = false;
  lt_trans : ∀ a b c, lt a b = true → lt b c = true → lt a c = true;
  lt_connex : ∀ a b, lt a b = false → lt b a = false → a = b
}.

(** [a < b] on [str]: lexicographic by code point. *)
Definition str_lt (a b : string) : bool := String.ltb a b.

Section Hash.
(** [hashlib.md5(s.encode()).hexdigest()] *)
Variable md5hex : string → string.
(** The order in which a Python [set] of strings yields its elements.
    It is not a function of the contents alone: it also depends on how
    the set came about, here the sequences of insertions that built the
    set or the operands it was computed from. *)
Variable set_iter : list (list string) → gset string → list string.

(** A hash object is modelled by the bytes it has been fed. *)
Definition hashobj : Type := string.
Definition md5_new : hashobj := "".
Definition update (h : hashobj) (data : string) : hashobj := h +:+ data.
Definition hexdigest (h : hashobj) : string := md5hex h.

(** Lines 30-39: the set of the sub-digests [added], in this order, to an
    empty set, then [for subhash in sorted(subhashes): hashobj.update(...)]. *)
Definition update_sorted (h : hashobj) (added : list string) : hashobj :=
  let subhashes : gset string := list_to_set added in
  fold_left update (py_sorted id str_lt (set_iter [added] subhashes)) h.

(** Lines 26-41, the body of the loop over the fields; [subhash] is the
    digest of one element of a list or set (lines 32-37). *)
Definition hash_attr (subhash : value → string) (ignore : gset string)
    (h : hashobj) (attr : string * value) : hashobj :=
  match attr with
  | (attr_name, attr_value) =>
      if decide (attr_name ∈ ignore) then h
      else match attr_value with
           | PyColl _ elems => update_sorted h (List.map subhash elems)
           | _ => update h (py_str attr_value)
           end
  end.

(** Lines 32-37: a tuple element is hashed recursively with the same
    ignore set, any other element through its [str()]. *)
Fixpoint subhash (ignore : gset string) (element : value) : string :=
  match element with
  | PyTuple _ fs =>
      hexdigest (fold_left (hash_attr (subhash ignore) ignore) fs md5_new)
  | _ => hexdigest (update md5_new (py_str element))
  end.

Definition stable_hash_namedtuple (objtuple : record) (ignore : gset string) : string :=
  hexdigest (fold_left (hash_attr (subhash ignore) ignore) (fields_of objtuple) md5_new).

Definition hash_entry (entry : record) : string :=
  stable_hash_namedtuple entry {[ "source"; "entry"; "diff_amount" ]}.

(** *** What reaches the hash object

    The bytes one field contributes, and the whole input of the digest of
    a record: the contributions of its fields, one after the other, with
    nothing in between. *)
Definition attr_bytes (ignore : gset string) (attr : string * value) : string :=
  match attr with
  | (attr_name, attr_value) =>
      if decide (attr_name ∈ ignore) then ""
      else match attr_value with
           | PyColl _ elems =>
               let added := List.map (subhash ignore) elems in
               String.concat "" (py_sorted id str_lt (set_iter [added] (list_to_set added)))
           | _ => py_str attr_value
           end
  end.

Definition hash_input (objtuple : record) (ignore : gset string) : string :=
  String.concat "" (List.map (attr_bytes ignore) (fields_of objtuple)).
End Hash.

(** ** Records that hash alike

    Two field lists with the same names whose values agree outside the
    ignored names. *)
Definition same_except_ignored (ignore : gset string)
    (fs1 fs2 : list (string * value)) : Prop :=
  Forall2 (λ a b, a.1 = b.1 ∧ (a.1 ∉ ignore → a.2 = b.2)) fs1 fs2.

(** Two elements of a list or set field: records of one type that agree
    outside the ignored names, or equal values. *)
Definition elem_same (ignore : gset string) (e1 e2 : value) : Prop :=
  match e1, e2 with
  | PyTuple n1 fs1, PyTuple n2 fs2 => n1 = n2 ∧ same_except_ignored ignore fs1 fs2
  | _, _ => e1 = e2
  end.

(** Two values of one field: collections whose elements are pairwise alike
    in the sense above, or values, nested records included, with the same
    [str()]. *)
Definition field_same (ignore : gset string) (v1 v2 : value) : Prop :=
  match v1, v2 with
  | PyColl _ xs1, PyColl _ xs2 => Forall2 (elem_same ignore) xs1 xs2
  | PyColl _ _, _ | _, PyColl _ _ => False
  | _, _ => py_str v1 = py_str v2
  end.

(** ** Exceptions *)
Inductive exn : Type :=
| AttributeError (attr : string)
| AssertionError (args : nat * nat)
| IndexError
| KeyError (key : string)
| ValueError (msg : string).

Inductive result (A : Type) : Type :=
| Return (a : A)
| Raise (e : exn).
Arguments Return {A} a.
Arguments Raise {A} e.

#[global] Instance result_ret : MRet result := @Return.
#[global] Instance result_bind : MBind result := λ A B k m,
  match m with
  | Return a => k a
  | Raise e => Raise e
  end.

(** [CompareError = namedtuple('CompareError', 'source message entry')] *)
Record CompareError := CompareError_ {
  source : value;
  message : string;
  entry : record
}.

(** [obj.name] on a namedtuple instance. *)
Fixpoint lookup_field (name : string) (fs : list (string * value)) : option value :=
  match fs with
  | [] => None
  | (n, v) :: fs' => if decide (n = name) then Some v else lookup_field name fs'
  end.

Definition getattr (obj : record) (name : string) : result value :=
  match lookup_field name (fields_of obj) with
  | Some v => Return v
  | None => Raise (AttributeError name)
  end.

Section Compare.
Variable md5hex : string → string.
Variable set_iter : list (list string) → gset string → list string.
(** [repr()] of a [str] object. *)
Variable str_repr : string → string.
(** [entry_sortkey], imported from [beancount.core.data], and [<] on the
    keys it returns. *)
Context {K : Type}.
Variable entry_sortkey : record → K.
Variable key_lt : K → K → bool.

(** [str(error)], the namedtuple rendering of a [CompareError]. *)
Definition error_value (e : CompareError) : value :=
  PyTuple "CompareError"
    [("source", source e);
     ("message", PyObj (message e) (str_repr (message e)));
     ("entry", value_of (entry e))].

Definition str_error (e : CompareError) : string := py_str (error_value e).

(** ["Duplicate entry: {} == {}".format(entry, other_entry)] *)
Definition duplicate_message (entry other_entry : record) : string :=
  "Duplicate entry: " +:+ py_str (value_of entry) +:+ " == "
    +:+ py_str (value_of other_entry).

(** Lines 70-79, one turn of the loop of [hash_entries]. *)
Definition hash_entries_step
    (st : gmap string record * list CompareError) (entry : record)
    : result (gmap string record * list CompareError) :=
  let '(entry_hash_dict, errors) := st in
  let hash_ := hash_entry md5hex set_iter entry in
  errors' ← match entry_hash_dict !! hash_ with
             | Some other_entry =>
                 src ← getattr entry "source";
                 Return (errors ++ [CompareError_ src (duplicate_message entry other_entry) entry])
             | None => Return errors
             end;
  Return (<[hash_ := entry]> entry_hash_dict, errors').

Fixpoint hash_entries_loop (entries : list record)
    (st : gmap string record * list CompareError)
    : result (gmap string record * list CompareError) :=
  match entries with
  | [] => Return st
  | entry :: rest => st' ← hash_entries_step st entry; hash_entries_loop rest st'
  end.

Definition hash_entries (entries : list record)
    : result (gmap string record * list CompareError) :=
  '(entry_hash_dict, errors) ← hash_entries_loop entries (∅, []);
  match errors with
  | [] =>
      if decide (size entry_hash_dict = length entries)
      then Return (entry_hash_dict, errors)
      else Raise (AssertionError (size entry_hash_dict, length entries))
  | _ :: _ => Return (entry_hash_dict, errors)
  end.

(** [[hashes[key] for key in keys]] *)
Fixpoint getitems (hashes : gmap string record) (keys : list string)
    : result (list record) :=
  match keys with
  | [] => Return []
  | key :: keys' =>
      match hashes !! key with
      | Some e => es ← getitems hashes keys'; Return (e :: es)
      | None => Raise (KeyError key)
      end
  end.

(** Lines 109-111: [if errors1 or errors2: raise ValueError(str((errors1 + errors2)[0]))];
    [None] when neither list holds an error. *)
Definition first_error (errors1 errors2 : list CompareError) : option exn :=
  match errors1, errors2 with
  | [], [] => None
  | _, _ =>
      match (errors1 ++ errors2) !! 0%nat with
      | Some error => Some (ValueError (str_error error))
      | None => Some IndexError
      end
  end.

Definition sorted_entries (l : list record) : list record :=
  py_sorted entry_sortkey key_lt l.

Definition compare_entries (entries1 entries2 : list record)
    : result (bool * list record * list record) :=
  '(hashes1, errors1) ← hash_entries entries1;
  '(hashes2, errors2) ← hash_entries entries2;
  let keys1 : gset string := dom hashes1 in
  let keys2 : gset string := dom hashes2 in
  let added1 := hash_entry md5hex set_iter <$> entries1 in
  let added2 := hash_entry md5hex set_iter <$> entries2 in
  match first_error errors1 errors2 with
  | Some e => Raise e
  | None =>
      let same := bool_decide (keys1 = keys2) in
      missing1 ← getitems hashes1 (set_iter [added1; added2] (keys1 ∖ keys2));
      missing2 ← getitems hashes2 (set_iter [added2; added1] (keys2 ∖ keys1));
      Return (same, sorted_entries missing1, sorted_entries missing2)
  end.

Definition includes_entries (subset_entries entries : list record)
    : result (bool * list record) :=
  '(subset_hashes, subset_errors) ← hash_entries subset_entries;
  let subset_keys : gset string := dom subset_hashes in
  '(hashes, errors) ← hash_entries entries;
  let keys : gset string := dom hashes in
  match first_error subset_errors errors with
  | Some e => Raise e
  | None =>
      let includes := bool_decide (subset_keys ⊆ keys) in
      missing ← getitems subset_hashes
                  (set_iter [hash_entry md5hex set_iter <$> subset_entries;
                             hash_entry md5hex set_iter <$> entries]
                            (subset_keys ∖ keys));
      Return (includes, sorted_entries missing)
  end.

Definition excludes_entries (subset_entries entries : list record)
    : result (bool * list record) :=
  '(subset_hashes, subset_errors) ← hash_entries subset_entries;
  let subset_keys : gset string := dom subset_hashes in
  '(hashes, errors) ← hash_entries entries;
  let keys : gset string := dom hashes in
  match first_error subset_errors errors with
  | Some e => Raise e
  | None =>
      let intersection := keys ∩ subset_keys in
      let excludes := negb (bool_decide (intersection ≠ ∅)) in
      extra ← getitems subset_hashes
                (set_iter [hash_entry md5hex set_iter <$> entries;
                           hash_entry md5hex set_iter <$> subset_entries]
                          intersection);
      Return (excludes, sorted_entries extra)
  end.

(** *** The duplicates of a list of entries, read off the list

    [previous h prefix] is the latest entry of [prefix] with digest [h];
    [duplicates prefix entries] pairs every entry whose digest was seen
    before, in [prefix] or earlier in [entries], with that latest entry. *)
Definition previous (h : string) (prefix : list record) : option record :=
  last (filter (λ e, hash_entry md5hex set_iter e = h) prefix).

Fixpoint duplicates (prefix entries : list record) : list (record * record) :=
  match entries with
  | [] => []
  | e :: rest =>
      match previous (hash_entry md5hex set_iter e) prefix with
      | Some other => (e, other) :: duplicates (prefix ++ [e]) rest
      | None => duplicates (prefix ++ [e]) rest
      end
  end.

(** An index that holds, for each digest, the latest entry seen. *)
Definition latest_of (d : gmap string record) (seen : list record) : Prop :=
  ∀ h, d !! h = previous h seen.

(** The error reported for the duplicate [p.1] of [p.2]. *)
Definition reports (err : CompareError) (p : record * record) : Prop :=
  entry err = p.1
  ∧ message err = duplicate_message p.1 p.2
  ∧ lookup_field "source" (fields_of p.1) = Some (source err).

(** The digests of a list of entries, as a set. *)
Definition digests (entries : list record) : gset string :=
  list_to_set (hash_entry md5hex set_iter <$> entries).

(** Some digest occurs twice. *)
Definition has_duplicate (entries : list record) : Prop :=
  ¬ NoDup (hash_entry md5hex set_iter <$> entries).
End Compare.

(** Directives carry a [source] attribute. *)
Definition has_source (e : record) : Prop :=
  is_Some (lookup_field "source" (fields_of e)).

(** ** A concrete instance

    The real MD5, one admissible iteration order for sets, [repr] of a
    [str] made of printable ASCII characters, and the [date] field, compared
    as text, as sort key. *)
Module Concrete.

Definition dquote : ascii := "034"%char.
Definition squote : ascii := "039"%char.
Definition backslash : ascii := "092"%char.

Fixpoint contains (c : ascii) (s : string) : bool :=
  match s with
  | EmptyString => false
  | String c' s' => if decide (c' = c) then true else contains c s'
  end.

Fixpoint escape (q : ascii) (s : string) : string :=
  match s with
  | EmptyString => EmptyString
  | String c s' =>
      if decide (c = q ∨ c = backslash)
      then String backslash (String c (escape q s'))
      else String c (escape q s')
  end.

Definition str_repr (s : string) : string :=
  let q := if contains squote s && negb (contains dquote s) then dquote else squote in
  String q (escape q s) +:+ String q EmptyString.

Definition set_iter (_ : list (list string)) (X : gset string) : list string :=
  elements X.

Definition date_key (e : record) : string :=
  match lookup_field "date" (fields_of e) with
  | Some d => py_str d
  | None => ""
  end.

Definition hash_entry : record → string := hash_entry MD5.hexdigest set_iter.
Definition hash_entries := hash_entries MD5.hexdigest set_iter.
Definition compare_entries := compare_entries MD5.hexdigest set_iter str_repr date_key str_lt.
Definition includes_entries := includes_entries MD5.hexdigest set_iter str_repr date_key str_lt.
Definition excludes_entries := excludes_entries MD5.hexdigest set_iter str_repr date_key str_lt.

(** *** Sample ledger data *)

(** [Tx(source=..., date=..., amount=...)] *)
Definition tx (src date amount : string) : record :=
  MkRecord "Tx" [("source", py_text src); ("date", py_text date);
                ("amount", py_atom amount)].

(** [Posting(entry=..., account=...)]; [entry] names the owning entry. *)
Definition posting (owner account : string) : value :=
  PyTuple "Posting" [("entry", py_text owner); ("account", py_text account)].

(** [Note(source=..., date=..., posting=Posting(...))]: a record held
    directly in a field. *)
Definition note (owner : string) : record :=
  MkRecord "Note" [("source", py_text "ledger:1"); ("date", py_text "2014-01-01");
                  ("posting", posting owner "Assets:Cash")].

(** [Transaction(source=..., date=..., postings=[...])] *)
Definition transaction (src date : string) (postings : list value) : record :=
  MkRecord "Transaction" [("source", py_text src); ("date", py_text date);
                         ("postings", PyList postings)].

(** [Price(date=..., amount=...)]: a record without [source]. *)
Definition price (date amount : string) : record :=
  MkRecord "Price" [("date", py_text date); ("amount", py_atom amount)].

(** [Event(source=..., type=..., description=...)] *)
Definition event (type description : string) : record :=
  MkRecord "Event" [("source", py_text "ledger:1"); ("type", py_text type);
                   ("description", py_text description)].

(** [Open(source=..., date=..., currencies=[...])] *)
Definition open_ (currencies : list string) : record :=
  MkRecord "Open" [("source", py_text "ledger:1"); ("date", py_text "2014-01-01");
                  ("currencies", PyList (py_text <$> currencies))].

End Concrete.

(** ** Proof automation

    Closes [same_except_ignored] goals on explicit field lists. *)
Ltac same_fields :=
  repeat first
    [ apply List.Forall2_nil
    | apply List.Forall2_cons;
      [ split;
        [ reflexivity
        | first [ intros _; reflexivity | intros Hn; destruct Hn; set_solver ] ]
      | ] ].

(** * Properties *)

(** ** MD5 test vectors (RFC 1321, appendix A.5) *)
Example md5_empty : MD5.hexdigest "" = "d41d8cd98f00b204e9800998ecf8427e".
Proof. vm_compute. reflexivity. Qed.

Example md5_abc : MD5.hexdigest "abc" = "900150983cd24fb0d6963f7d28e17f72".
Proof. vm_compute. reflexivity. Qed.

Example md5_alphabet :
  MD5.hexdigest "abcdefghijklmnopqrstuvwxyz" = "c3fcd3d76192e4007dfb496cca67e13b".
Proof. vm_compute. reflexivity. Qed.

Example md5_two_blocks :
  MD5.hexdigest
    "12345678901234567890123456789012345678901234567890123456789012345678901234567890"
  = "57edf4a22be3c955ac49da2e2107b67a".
Proof. vm_compute. reflexivity. Qed.

(** ** [sorted] *)
Section SortedFacts.
Context {A K : Type} (key : A → K) (lt : K → K → bool) `{!StrictTotal lt}.

Lemma lt_asym (a b : K) : lt a b = true → lt b a = false.
Proof.
  intros Hab. destruct (lt b a) eqn:Hba; [|done].
  pose proof (lt_trans _ _ _ Hab Hba) as Haa.
  by rewrite lt_irrefl in Haa.
Qed.

Local Abbreviation in_order := (in_order key lt).

Lemma in_order_trans (a b c : A) : in_order a b → in_order b c → in_order a c.
Proof.
  unfold in_order. intros Hba Hcb.
  destruct (lt (key c) (key a)) eqn:Hca; [|done].
  destruct (lt (key a) (key b)) eqn:Hab.
  - by rewrite (lt_trans _ _ _ Hca Hab) in Hcb.
  - rewrite <- (lt_connex _ _ Hab Hba) in Hcb. congruence.
Qed.

Lemma sorted_insert_Permutation (x : A) (l : list A) :
  sorted_insert key lt x l ≡ₚ x :: l.
Proof.
  induction l as [|y l IH]; simpl; [done|].
  destruct (lt (key y) (key x)); [|done].
  rewrite IH. apply Permutation_swap.
Qed.

Lemma py_sorted_Permutation (l : list A) : py_sorted key lt l ≡ₚ l.
Proof.
  induction l as [|x l IH]; simpl; [done|].
  by rewrite sorted_insert_Permutation, IH.
Qed.

Lemma sorted_insert_StronglySorted (x : A) (l : list A) :
  StronglySorted in_order l → StronglySorted in_order (sorted_insert key lt x l).
Proof.
  induction 1 as [|y l Hl IH Hy]; simpl.
  - repeat constructor.
  - destruct (lt (key y) (key x)) eqn:Hyx.
    + constructor; [done|].
      rewrite sorted_insert_Permutation. constructor; [|done].
      by apply lt_asym.
    + constructor; [by constructor|].
      constructor; [done|].
      eapply Forall_impl; [exact Hy|].
      intros z Hz. by apply in_order_trans with y.
Qed.

Lemma py_sorted_StronglySorted (l : list A) :
  StronglySorted in_order (py_sorted key lt l).
Proof.
  induction l as [|x l IH]; simpl; [constructor|].
  by apply sorted_insert_StronglySorted.
Qed.
End SortedFacts.

(** Sorting the values themselves: the result depends on the elements only,
    not on the order in which they come. *)
Lemma py_sorted_id_unique {A : Type} (lt : A → A → bool) `{!StrictTotal lt}
    (l1 l2 : list A) :
  l1 ≡ₚ l2 → py_sorted id lt l1 = py_sorted id lt l2.
Proof.
  intros Hp.
  assert (AntiSymm (=) (in_order id lt)) as Hanti.
  { intros a b Hab Hba. symmetry. by apply (lt_connex (lt:=lt)). }
  apply (StronglySorted_unique (in_order id lt)).
  - by apply py_sorted_StronglySorted.
  - by apply py_sorted_StronglySorted.
  - by rewrite !py_sorted_Permutation.
Qed.

#[global] Instance str_lt_strict_total : StrictTotal str_lt.
Proof.
  split; unfold str_lt, String.ltb.
  - intros a. pose proof (proj2 (OrderedTypeEx.String_as_OT.cmp_eq a a) eq_refl) as H.
    unfold OrderedTypeEx.String_as_OT.cmp in H. by rewrite H.
  - intros a b c Hab Hbc.
    destruct (String.compare a b) eqn:H1; try done.
    destruct (String.compare b c) eqn:H2; try done.
    apply OrderedTypeEx.String_as_OT.cmp_lt in H1, H2.
    pose proof (OrderedTypeEx.String_as_OT.lt_trans _ _ _ H1 H2) as H3.
    apply OrderedTypeEx.String_as_OT.cmp_lt in H3.
    unfold OrderedTypeEx.String_as_OT.cmp in H3. by rewrite H3.
  - intros a b Hab Hba.
    rewrite String.compare_antisym in Hba.
    destruct (String.compare a b) eqn:H1; simpl in *; try done.
    by apply String.compare_eq_iff.
Qed.

(** ** Strings *)
Lemma str_app_nil_r (s : string) : s +:+ "" = s.
Proof.
  induction s as [|c s IH]; [done|].
  change (String c (s +:+ "") = String c s). by rewrite IH.
Qed.

Lemma str_app_assoc (s1 s2 s3 : string) : (s1 +:+ s2) +:+ s3 = s1 +:+ (s2 +:+ s3).
Proof.
  induction s1 as [|c s1 IH]; [done|].
  change (String c ((s1 +:+ s2) +:+ s3) = String c (s1 +:+ s2 +:+ s3)).
  by rewrite IH.
Qed.

Lemma str_concat_cons (x : string) (xs : list string) :
  String.concat "" (x :: xs) = x +:+ String.concat "" xs.
Proof. destruct xs; [by rewrite str_app_nil_r|done]. Qed.

(** Feeding a hash object a list of chunks appends their concatenation. *)
Lemma fold_update_concat (l : list string) (h : hashobj) :
  fold_left update l h = h +:+ String.concat "" l.
Proof.
  revert h. induction l as [|x l IH]; intros h.
  - simpl. by rewrite str_app_nil_r.
  - rewrite str_concat_cons. simpl fold_left. rewrite IH. unfold update.
    by rewrite str_app_assoc.
Qed.

(** ** The stable hash *)
Section HashFacts.
Variable md5hex : string → string.
Variable set_iter : list (list string) → gset string → list string.

(** The digest of a record is the digest of the same namedtuple met as an
    element of a collection. *)
Lemma stable_hash_subhash (r : record) (ignore : gset string) :
  stable_hash_namedtuple md5hex set_iter r ignore
  = subhash md5hex set_iter ignore (value_of r).
Proof. done. Qed.

Lemma hash_attr_bytes (ignore : gset string) (h : hashobj) (attr : string * value) :
  hash_attr set_iter (subhash md5hex set_iter ignore) ignore h attr
  = h +:+ attr_bytes md5hex set_iter ignore attr.
Proof.
  destruct attr as [n v]. unfold hash_attr, attr_bytes.
  destruct (decide (n ∈ ignore)); [by rewrite str_app_nil_r|].
  destruct v; try done.
  unfold update_sorted. by rewrite fold_update_concat.
Qed.

Lemma fold_hash_attr_bytes (ignore : gset string) (fs : list (string * value))
    (h : hashobj) :
  fold_left (hash_attr set_iter (subhash md5hex set_iter ignore) ignore) fs h
  = h +:+ String.concat "" (List.map (attr_bytes md5hex set_iter ignore) fs).
Proof.
  revert h. induction fs as [|a fs IH]; intros h.
  - simpl. by rewrite str_app_nil_r.
  - simpl fold_left. rewrite IH, hash_attr_bytes.
    change (List.map ?f (a :: fs)) with (f a :: List.map f fs).
    by rewrite str_concat_cons, str_app_assoc.
Qed.

(** The digest is MD5 applied to [hash_input]. *)
Lemma stable_hash_input (r : record) (ignore : gset string) :
  stable_hash_namedtuple md5hex set_iter r ignore
  = md5hex (hash_input md5hex set_iter r ignore).
Proof.
  unfold stable_hash_namedtuple, hash_input, hexdigest.
  by rewrite fold_hash_attr_bytes.
Qed.
End HashFacts.

(** ** What the digest does not depend on *)
Section Ignored.
Variable md5hex : string → string.
Variable set_iter : list (list string) → gset string → list string.

Local Abbreviation digest := (stable_hash_namedtuple md5hex set_iter).

(** Replacing the value of one field by one that adds the same bytes. *)
Lemma digest_field_congr (ignore : gset string) (tn : string)
    (pre post : list (string * value)) (name : string) (v1 v2 : value) :
  (∀ h, hash_attr set_iter (subhash md5hex set_iter ignore) ignore h (name, v1)
        = hash_attr set_iter (subhash md5hex set_iter ignore) ignore h (name, v2)) →
  digest (MkRecord tn (pre ++ (name, v1) :: post)) ignore
  = digest (MkRecord tn (pre ++ (name, v2) :: post)) ignore.
Proof.
  intros E. unfold stable_hash_namedtuple. simpl fields_of.
  rewrite !fold_left_app.
  change (fold_left ?f (?a :: ?l) ?h) with (fold_left f l (f h a)).
  by rewrite E.
Qed.

Lemma fold_same_except_ignored (ignore : gset string)
    (fs1 fs2 : list (string * value)) (h : hashobj) :
  same_except_ignored ignore fs1 fs2 →
  fold_left (hash_attr set_iter (subhash md5hex set_iter ignore) ignore) fs1 h
  = fold_left (hash_attr set_iter (subhash md5hex set_iter ignore) ignore) fs2 h.
Proof.
  intros HF. revert h.
  induction HF as [|[n1 v1] [n2 v2] fs1 fs2 [Hn Hv] _ IH]; intros h; [done|].
  simpl in Hn, Hv. subst n2.
  change (fold_left ?f (?a :: ?l) ?h) with (fold_left f l (f h a)).
  rewrite <- IH. f_equal.
  unfold hash_attr. destruct (decide (n1 ∈ ignore)); [done|]. by rewrite Hv.
Qed.

Lemma same_except_ignored_mono (ignore ignore' : gset string)
    (fs1 fs2 : list (string * value)) :
  ignore ⊆ ignore' →
  same_except_ignored ignore fs1 fs2 → same_except_ignored ignore' fs1 fs2.
Proof.
  intros Hsub HF. eapply Forall2_impl; [exact HF|].
  intros a b [Hn Hv]. split; [done|].
  intros Hni. apply Hv. set_solver.
Qed.

Lemma subhash_elem_same (ignore : gset string) (e1 e2 : value) :
  elem_same ignore e1 e2 →
  subhash md5hex set_iter ignore e1 = subhash md5hex set_iter ignore e2.
Proof.
  intros H. destruct e1, e2; simpl in H; try (by simplify_eq).
  destruct H as [_ HF]. simpl. f_equal. by apply fold_same_except_ignored.
Qed.

(** C8. Two records whose fields agree outside the ignored names have the
    same digest; with [hash_entry], the values of [source], [entry] and
    [diff_amount] have no influence. *)
Theorem ignored_fields_have_no_influence (ignore : gset string) (r1 r2 : record) :
  same_except_ignored ignore (fields_of r1) (fields_of r2) →
  digest r1 ignore = digest r2 ignore
  ∧ (ignore ⊆ {[ "source"; "entry"; "diff_amount" ]} →
     hash_entry md5hex set_iter r1 = hash_entry md5hex set_iter r2).
Proof.
  intros HF. split.
  - unfold stable_hash_namedtuple. f_equal. by apply fold_same_except_ignored.
  - intros Hsub. unfold hash_entry, stable_hash_namedtuple. f_equal.
    apply fold_same_except_ignored. by eapply same_except_ignored_mono.
Qed.

(** C1, as the code has it.  The hash recurses, with the same ignore set,
    into the records that are elements of a list or set field; a record
    held directly in a field is folded through its [str()].  So replacing
    the value of a field leaves the digest unchanged when both values are
    collections whose elements agree pairwise outside the ignored names,
    or when both have the same [str()]. *)
Theorem nested_record_hashing (ignore : gset string) (tn : string)
    (pre post : list (string * value)) (name : string) (v1 v2 : value) :
  field_same ignore v1 v2 →
  digest (MkRecord tn (pre ++ (name, v1) :: post)) ignore
  = digest (MkRecord tn (pre ++ (name, v2) :: post)) ignore.
Proof.
  intros HF. apply digest_field_congr. intros h. unfold hash_attr.
  destruct (decide (name ∈ ignore)); [done|].
  destruct v1 as [s1 r1|k1 xs1|n1 fs1], v2 as [s2 r2|k2 xs2|n2 fs2];
    simpl in HF; try done; try (by rewrite <- HF); try (by unfold update; simpl; rewrite HF).
  f_equal. induction HF as [|e1 e2 l1 l2 He _ IH]; [done|].
  simpl. by rewrite IH, (subhash_elem_same _ _ _ He).
Qed.

(** C2, as the code has it.  The digest of a record is MD5 of
    [hash_input], the bytes of its non-ignored fields put end to end with
    nothing between them; so, unless MD5 collides on the two inputs, two
    records have different digests exactly when their inputs differ. *)
Theorem digests_differ_iff_inputs_differ (ignore : gset string) (r1 r2 : record) :
  (md5hex (hash_input md5hex set_iter r1 ignore)
   = md5hex (hash_input md5hex set_iter r2 ignore) →
   hash_input md5hex set_iter r1 ignore = hash_input md5hex set_iter r2 ignore) →
  digest r1 ignore = md5hex (hash_input md5hex set_iter r1 ignore)
  ∧ digest r2 ignore = md5hex (hash_input md5hex set_iter r2 ignore)
  ∧ (digest r1 ignore ≠ digest r2 ignore
     ↔ hash_input md5hex set_iter r1 ignore ≠ hash_input md5hex set_iter r2 ignore).
Proof.
  intros Hinj. rewrite !stable_hash_input. split; [done|]. split; [done|]. split.
  - intros Hne E. apply Hne. by rewrite E.
  - intros Hne E. by apply Hne, Hinj.
Qed.
End Ignored.

(** ** Lists and sets as unordered collections *)
Section Collections.
Variable md5hex : string → string.
Variable set_iter : list (list string) → gset string → list string.
(** Iterating over a set yields each of its elements once. *)
Hypothesis set_iter_perm : ∀ hist X, set_iter hist X ≡ₚ elements X.

Local Abbreviation digest := (stable_hash_namedtuple md5hex set_iter).

(** What a collection adds to the hash object depends on the set of its
    sub-digests only. *)
Lemma update_sorted_same_set (h : hashobj) (added1 added2 : list string) :
  list_to_set added1 =@{gset string} list_to_set added2 →
  update_sorted set_iter h added1 = update_sorted set_iter h added2.
Proof.
  intros E. unfold update_sorted. rewrite <- E. f_equal.
  apply py_sorted_id_unique; [apply _|].
  by rewrite !set_iter_perm.
Qed.

(** C6. Permuting the elements of a list or set field does not change the
    digest of the record. *)
Theorem collection_order_invariant (ignore : gset string) (tn : string)
    (pre post : list (string * value)) (name : string) (kind : coll_kind)
    (xs ys : list value) :
  xs ≡ₚ ys →
  digest (MkRecord tn (pre ++ (name, PyColl kind xs) :: post)) ignore
  = digest (MkRecord tn (pre ++ (name, PyColl kind ys) :: post)) ignore.
Proof.
  intros Hp. apply digest_field_congr. intros h. unfold hash_attr.
  destruct (decide (name ∈ ignore)); [done|].
  apply update_sorted_same_set, list_to_set_perm_L.
  by apply Permutation_map.
Qed.

(** C7. A repeated element of a list or set field counts once: dropping
    the repetition, whichever of the two occurrences, does not change the
    digest. *)
Theorem repeated_element_collapses (ignore : gset string) (tn : string)
    (pre post : list (string * value)) (name : string) (kind : coll_kind)
    (x : value) (l1 l2 l3 : list value) :
  digest (MkRecord tn (pre ++ (name, PyColl kind (l1 ++ x :: l2 ++ x :: l3)) :: post)) ignore
  = digest (MkRecord tn (pre ++ (name, PyColl kind (l1 ++ x :: l2 ++ l3)) :: post)) ignore
  ∧ digest (MkRecord tn (pre ++ (name, PyColl kind (l1 ++ x :: l2 ++ x :: l3)) :: post)) ignore
    = digest (MkRecord tn (pre ++ (name, PyColl kind (l1 ++ l2 ++ x :: l3)) :: post)) ignore.
Proof.
  split; apply digest_field_congr; intros h; unfold hash_attr;
    (destruct (decide (name ∈ ignore)); [done|]);
    apply update_sorted_same_set;
    rewrite !map_app, !map_cons, !map_app, ?map_cons;
    rewrite !list_to_set_app_L, !list_to_set_cons, !list_to_set_app_L, ?list_to_set_cons;
    apply set_eq; intros y; rewrite !elem_of_union; tauto.
Qed.
End Collections.

(** ** The digest index *)
Section IndexFacts.
Variable md5hex : string → string.
Variable set_iter : list (list string) → gset string → list string.

Local Abbreviation H := (hash_entry md5hex set_iter).
Local Abbreviation prev := (previous md5hex set_iter).
Local Abbreviation dups := (duplicates md5hex set_iter).
Local Abbreviation latest_of := (latest_of md5hex set_iter).

Local Abbreviation hashes := (digests md5hex set_iter).

Lemma previous_snoc (h : string) (prefix : list record) (e : record) :
  prev h (prefix ++ [e]) = if decide (H e = h) then Some e else prev h prefix.
Proof.
  unfold previous. rewrite filter_app, filter_cons, filter_nil.
  destruct (decide (H e = h)).
  - by rewrite last_snoc.
  - by rewrite app_nil_r.
Qed.

Lemma previous_None (h : string) (l : list record) :
  prev h l = None ↔ h ∉ H <$> l.
Proof.
  unfold previous. rewrite last_None, list_elem_of_fmap. split.
  - intros Hnil (e & -> & He). by eapply filter_nil_not_elem_of.
  - intros Hno. destruct (filter _ l) as [|e l'] eqn:E; [done|].
    assert (e ∈ filter (λ e0, H e0 = H e) l) as Hin.
    { apply list_elem_of_filter.
      assert (e ∈ e :: l') as Hin by left. rewrite <- E in Hin.
      apply list_elem_of_filter in Hin as [He Hel].
      exfalso. apply Hno. by exists e. }
    exfalso. apply list_elem_of_filter in Hin as [_ Hel]. apply Hno.
    assert (e ∈ e :: l') as Hin' by left. rewrite <- E in Hin'.
    apply list_elem_of_filter in Hin' as [He _]. by exists e.
Qed.

Lemma previous_Some (h : string) (l : list record) (e : record) :
  prev h l = Some e → H e = h ∧ e ∈ l.
Proof.
  unfold previous. intros Hl. apply last_Some_elem_of in Hl.
  by apply list_elem_of_filter in Hl.
Qed.

Lemma previous_is_Some (h : string) (l : list record) :
  is_Some (prev h l) ↔ h ∈ H <$> l.
Proof.
  rewrite <- not_eq_None_Some, previous_None.
  split; [apply dec_stable|by intros ??].
Qed.

Lemma latest_of_insert (d : gmap string record) (seen : list record) (e : record) :
  latest_of d seen → latest_of (<[H e := e]> d) (seen ++ [e]).
Proof.
  intros Hd h. rewrite previous_snoc, lookup_insert.
  destruct (decide (H e = h)); [done|apply Hd].
Qed.

Lemma latest_of_dom (d : gmap string record) (seen : list record) :
  latest_of d seen → dom d = hashes seen.
Proof.
  intros Hd. apply set_eq. intros h. unfold digests.
  by rewrite elem_of_dom, Hd, previous_is_Some, elem_of_list_to_set.
Qed.

Lemma duplicates_fst (prefix entries : list record) (p : record * record) :
  p ∈ dups prefix entries → p.1 ∈ entries.
Proof.
  revert prefix. induction entries as [|e rest IH]; intros prefix; simpl.
  - by intros ?%elem_of_nil.
  - destruct (prev (H e) prefix).
    + intros [->|Hin]%elem_of_cons; [left|right; by eapply IH].
    + intros Hin. right. by eapply IH.
Qed.
(** Every entry is either a duplicate or brings a new digest. *)
Lemma duplicates_count (prefix entries : list record) :
  length (dups prefix entries) + size (hashes (prefix ++ entries))
  = length entries + size (hashes prefix).
Proof.
  revert prefix. induction entries as [|e rest IH]; intros prefix.
  - simpl. by rewrite app_nil_r.
  - specialize (IH (prefix ++ [e])). rewrite <- app_assoc in IH. simpl in IH.
    assert (hashes (prefix ++ [e]) = {[ H e ]} ∪ hashes prefix) as Hsnoc.
    { unfold digests. rewrite fmap_app, list_to_set_app_L. simpl. set_solver. }
    rewrite Hsnoc in IH. simpl.
    destruct (prev (H e) prefix) as [o|] eqn:Hprev.
    + assert (H e ∈ hashes prefix) as Hin.
      { unfold digests. apply elem_of_list_to_set, previous_is_Some. by rewrite Hprev. }
      replace ({[ H e ]} ∪ hashes prefix) with (hashes prefix) in IH by set_solver.
      simpl. lia.
    + assert (H e ∉ hashes prefix) as Hnin.
      { unfold digests. rewrite elem_of_list_to_set. by apply previous_None. }
      rewrite size_union, size_singleton in IH by set_solver. lia.
Qed.

Lemma duplicates_nil (prefix entries : list record) :
  dups prefix entries = []
  ↔ NoDup (H <$> entries) ∧ ∀ e, e ∈ entries → H e ∉ H <$> prefix.
Proof.
  revert prefix. induction entries as [|e rest IH]; intros prefix.
  - simpl. split; [|done]. intros _. split; [constructor|]. by intros ? ?%elem_of_nil.
  - simpl. destruct (prev (H e) prefix) as [o|] eqn:Hprev.
    + split; [done|]. intros [_ Hno]. exfalso.
      apply (Hno e); [left|]. apply previous_is_Some. by rewrite Hprev.
    + apply previous_None in Hprev. rewrite IH, NoDup_cons. split.
      * intros [Hnd Hno]. split; [split; [|done]|].
        -- intros (e' & He' & Hin)%list_elem_of_fmap.
           apply (Hno e' Hin). rewrite fmap_app, elem_of_app. right.
           rewrite <- He'. simpl. left.
        -- intros e' [->|Hin]%elem_of_cons; [done|].
           intros Hp. apply (Hno e' Hin). rewrite fmap_app, elem_of_app. by left.
      * intros [[Hne Hnd] Hno]. split; [done|].
        intros e' Hin. rewrite fmap_app, elem_of_app. intros [Hp|Hp].
        -- apply (Hno e'); [by right|done].
        -- simpl in Hp. apply list_elem_of_singleton in Hp.
           apply Hne. rewrite <- Hp. apply list_elem_of_fmap. by exists e'.
Qed.

(** The loop of [hash_entries]: started on an index of the entries seen so
    far, it ends with the index of all entries and one error for each
    duplicate, or stops at a duplicate that has no [source]. *)
Lemma hash_entries_loop_spec (entries prefix : list record)
    (d : gmap string record) (errs : list CompareError) :
  latest_of d prefix →
  (∃ d' errs',
      hash_entries_loop md5hex set_iter entries (d, errs) = Return (d', errs ++ errs')
      ∧ latest_of d' (prefix ++ entries)
      ∧ Forall2 reports errs' (dups prefix entries))
  ∨ (hash_entries_loop md5hex set_iter entries (d, errs) = Raise (AttributeError "source")
     ∧ Exists (λ p, ¬ has_source p.1) (dups prefix entries)).
Proof.
  revert prefix d errs. induction entries as [|e rest IH]; intros prefix d errs Hd.
  - left. exists d, []. simpl. rewrite !app_nil_r. by repeat split.
  - simpl. unfold hash_entries_step. rewrite (Hd (H e)).
    pose proof (latest_of_insert _ _ e Hd) as Hd'.
    destruct (prev (H e) prefix) as [o|] eqn:Hprev.
    + unfold getattr. destruct (lookup_field "source" (fields_of e)) as [src|] eqn:Hsrc.
      * simpl.
        destruct (IH _ _ (errs ++ [CompareError_ src (duplicate_message e o) e]) Hd')
          as [(d' & errs' & Hr & Hl & HF)|[Hr HE]].
        -- left. exists d', (CompareError_ src (duplicate_message e o) e :: errs').
           rewrite <- app_assoc in Hr, Hl. simpl in Hr, Hl.
           split; [done|]. split; [done|]. by constructor.
        -- right. split; [done|]. by right.
      * right. split; [done|]. left. simpl. unfold has_source.
        rewrite Hsrc. by intros [? ?].
    + simpl. destruct (IH _ _ errs Hd') as [(d' & errs' & Hr & Hl & HF)|[Hr HE]].
      * left. exists d', errs'. rewrite <- app_assoc in Hl. by repeat split.
      * by right.
Qed.
Lemma latest_of_empty : latest_of ∅ [].
Proof. intros h. by rewrite lookup_empty. Qed.

Lemma index_size (d : gmap string record) (entries : list record) :
  latest_of d entries → size d + length (dups [] entries) = length entries.
Proof.
  intros Hd. rewrite <- size_dom, (latest_of_dom _ _ Hd).
  pose proof (duplicates_count [] entries) as Hc.
  change ([] ++ entries) with entries in Hc.
  change (hashes []) with (∅ : gset string) in Hc.
  rewrite size_empty in Hc. lia.
Qed.

(** [hash_entries] returns the index of the latest entries and one error
    for each duplicate; the assertion holds; the one exception it can
    raise is the [AttributeError] of a duplicate that has no [source]. *)
Lemma hash_entries_spec (entries : list record) :
  (∃ d errs,
      hash_entries md5hex set_iter entries = Return (d, errs)
      ∧ latest_of d entries
      ∧ Forall2 reports errs (dups [] entries))
  ∨ (hash_entries md5hex set_iter entries = Raise (AttributeError "source")
     ∧ Exists (λ p, ¬ has_source p.1) (dups [] entries)).
Proof.
  unfold hash_entries.
  destruct (hash_entries_loop_spec entries [] ∅ [] latest_of_empty)
    as [(d & errs & Hr & Hd & HF)|[Hr HE]]; rewrite Hr; simpl in *.
  - left. exists d, errs. split; [|done].
    destruct errs as [|err errs]; [|done].
    apply Forall2_nil_inv_l in HF.
    pose proof (index_size _ _ Hd) as Hs. rewrite HF in Hs. simpl in Hs.
    destruct (decide (size d = length entries)); [done|lia].
  - by right.
Qed.

(** C3. On every list of entries, [hash_entries] returns an index and a
    list of errors, and the errors are empty exactly when the index has as
    many keys as the list has entries; the assertion that checks it never
    fails.  (The one exception the function can raise is the
    [AttributeError] of a duplicate entry that has no [source] attribute,
    which a directive always has.) *)
Theorem errors_empty_iff_index_complete (entries : list record) :
  match hash_entries md5hex set_iter entries with
  | Return (entry_hash_dict, errors) =>
      errors = [] ↔ size entry_hash_dict = length entries
  | Raise e => e = AttributeError "source" ∧ ¬ Forall has_source entries
  end.
Proof.
  destruct (hash_entries_spec entries) as [(d & errs & Hr & Hd & HF)|[Hr HE]];
    rewrite Hr.
  - pose proof (index_size _ _ Hd) as Hs.
    apply Forall2_length in HF. rewrite <- HF in Hs.
    destruct errs; simpl in Hs; split; intros; try done; lia.
  - split; [done|]. intros Hall.
    apply Exists_exists in HE as (p & Hin & Hp). apply Hp.
    apply duplicates_fst in Hin. rewrite Forall_forall in Hall. by apply Hall.
Qed.

(** C4. [hash_entries] reports one error for each entry whose digest
    occurred earlier in the list, in the order of the list.  The error holds
    the entry and its [source], and its message is the text
    [Duplicate entry: ] followed by the entry, [ == ] and the entry the
    index held for that digest, the latest earlier one.  The index has one
    key for each distinct digest, as many as there are entries less the
    errors, and maps each digest to the last entry that has it. *)
Theorem one_error_per_duplicate_last_write_wins (entries : list record) :
  Forall has_source entries →
  ∃ entry_hash_dict errors,
    hash_entries md5hex set_iter entries = Return (entry_hash_dict, errors)
    ∧ Forall2 (λ error p,
                 entry error = p.1
                 ∧ message error
                   = "Duplicate entry: " +:+ py_str (value_of p.1)
                       +:+ " == " +:+ py_str (value_of p.2)
                 ∧ lookup_field "source" (fields_of p.1) = Some (source error))
        errors (duplicates md5hex set_iter [] entries)
    ∧ length errors + size (digests md5hex set_iter entries) = length entries
    ∧ size entry_hash_dict = length entries - length errors
    ∧ ∀ h, entry_hash_dict !! h
           = last (filter (λ e, hash_entry md5hex set_iter e = h) entries).
Proof.
  intros Hall.
  destruct (hash_entries_spec entries) as [(d & errs & Hr & Hd & HF)|[Hr HE]].
  - exists d, errs. pose proof (index_size _ _ Hd) as Hs.
    pose proof (Forall2_length _ _ _ HF) as Hlen.
    split; [done|]. split; [exact HF|].
    rewrite <- (latest_of_dom _ _ Hd), size_dom.
    split; [lia|]. split; [lia|]. exact Hd.
  - exfalso. apply Exists_exists in HE as (p & Hin & Hp). apply Hp.
    apply duplicates_fst in Hin. rewrite Forall_forall in Hall. by apply Hall.
Qed.
End IndexFacts.

(** ** The comparisons *)
Section CompareFacts.
Variable md5hex : string → string.
Variable set_iter : list (list string) → gset string → list string.
Variable str_repr : string → string.
Context {K : Type}.
Variable entry_sortkey : record → K.
Variable key_lt : K → K → bool.
Hypothesis set_iter_perm : ∀ hist X, set_iter hist X ≡ₚ elements X.

Local Abbreviation H := (hash_entry md5hex set_iter).
Local Abbreviation index := (hash_entries md5hex set_iter).
Local Abbreviation latest := (latest_of md5hex set_iter).
Local Abbreviation compare := (compare_entries md5hex set_iter str_repr entry_sortkey key_lt).
Local Abbreviation includes := (includes_entries md5hex set_iter str_repr entry_sortkey key_lt).
Local Abbreviation excludes := (excludes_entries md5hex set_iter str_repr entry_sortkey key_lt).

Lemma hash_entries_NoDup (entries : list record) :
  NoDup (H <$> entries) →
  ∃ d, index entries = Return (d, []) ∧ latest d entries.
Proof.
  intros Hnd.
  assert (duplicates md5hex set_iter [] entries = []) as Hnil.
  { apply duplicates_nil. split; [done|]. intros e _. simpl. apply not_elem_of_nil. }
  destruct (hash_entries_spec md5hex set_iter entries)
    as [(d & errs & Hr & Hd & HF)|[_ HE]].
  - rewrite Hnil in HF. apply Forall2_nil_inv_r in HF as ->. by exists d.
  - rewrite Hnil in HE. by apply Exists_nil in HE.
Qed.

Lemma hash_entries_errors (entries : list record) :
  Forall has_source entries →
  ∃ d errs, index entries = Return (d, errs) ∧ latest d entries
            ∧ (errs = [] ↔ NoDup (H <$> entries)).
Proof.
  intros Hall.
  destruct (hash_entries_spec md5hex set_iter entries)
    as [(d & errs & Hr & Hd & HF)|[_ HE]].
  - exists d, errs. split; [done|]. split; [done|].
    assert (duplicates md5hex set_iter [] entries = [] ↔ NoDup (H <$> entries)) as <-.
    { rewrite duplicates_nil. split; [by intros [? _]|]. intros ?. split; [done|].
      intros e _. simpl. apply not_elem_of_nil. }
    split.
    + intros ->. by apply Forall2_nil_inv_l in HF.
    + intros Hn. rewrite Hn in HF. by apply Forall2_nil_inv_r in HF.
  - exfalso. apply Exists_exists in HE as (p & Hin & Hp). apply Hp.
    apply duplicates_fst in Hin. rewrite Forall_forall in Hall. by apply Hall.
Qed.

(** Looking up keys that are all in the index raises no [KeyError]. *)
Lemma getitems_present (d : gmap string record) (keys : list string) :
  (∀ k, k ∈ keys → k ∈ dom d) →
  getitems d keys = Return ((λ k, default (MkRecord "" []) (d !! k)) <$> keys).
Proof.
  induction keys as [|k keys IH]; intros Hin; [done|].
  simpl. destruct (d !! k) as [e|] eqn:Hk.
  - rewrite IH; [done|]. intros k' Hk'. apply Hin. by right.
  - exfalso. assert (k ∈ dom d) as Hd by (apply Hin; left).
    apply elem_of_dom in Hd as [? ?]. congruence.
Qed.

Lemma getitems_iter (hist : list (list string)) (d : gmap string record)
    (X : gset string) :
  X ⊆ dom d →
  getitems d (set_iter hist X)
  = Return ((λ k, default (MkRecord "" []) (d !! k)) <$> set_iter hist X).
Proof.
  intros Hsub. apply getitems_present. intros k Hk. apply Hsub.
  rewrite set_iter_perm in Hk. by apply elem_of_elements in Hk.
Qed.

Lemma set_iter_nil (hist : list (list string)) (X : gset string) :
  set_iter hist X = [] ↔ X = ∅.
Proof.
  rewrite <- Permutation_nil_r, set_iter_perm, Permutation_nil_r.
  rewrite elements_empty_iff. by unfold_leibniz.
Qed.

Lemma first_error_nil : first_error str_repr [] [] = None.
Proof. done. Qed.

Lemma first_error_cons (errors1 errors2 : list CompareError) (error : CompareError)
    (rest : list CompareError) :
  errors1 ++ errors2 = error :: rest →
  first_error str_repr errors1 errors2 = Some (ValueError (str_error str_repr error)).
Proof.
  intros E. unfold first_error. rewrite E.
  destruct errors1, errors2; try done.
Qed.
Lemma bind_Return {A B : Type} (a : A) (k : A → result B) : Return a ≫= k = k a.
Proof. done. Qed.

(** The errors of a list of entries that all have a [source]. *)
Lemma hash_entries_reports (entries : list record) :
  Forall has_source entries →
  ∃ d errs, index entries = Return (d, errs)
            ∧ Forall2 reports errs (duplicates md5hex set_iter [] entries)
            ∧ (errs = [] ↔ NoDup (H <$> entries)).
Proof.
  intros Hall.
  destruct (hash_entries_errors _ Hall) as (d & errs & Hr & _ & Hn).
  exists d, errs. split; [done|]. split; [|done].
  destruct (hash_entries_spec md5hex set_iter entries)
    as [(d' & errs' & Hr' & _ & HF)|[Hr' _]]; rewrite Hr in Hr'; [|done].
  by injection Hr' as -> ->.
Qed.

(** [str(error)], written out. *)
Lemma str_error_text (error : CompareError) :
  str_error str_repr error
  = "CompareError(source=" +:+ py_repr (source error)
      +:+ ", message=" +:+ str_repr (message error)
      +:+ ", entry=" +:+ py_repr (value_of (entry error)) +:+ ")".
Proof.
  unfold str_error, error_value, py_str.
  cbn [py_repr String.concat List.map].
  rewrite !str_app_assoc. reflexivity.
Qed.

(** C5. The entries are directives: records with a [source] whose lists and
    sets hold records or objects that are not tuples.  Each comparison
    raises exactly when one of the two lists holds a duplicate, and returns
    otherwise.  The errors are those of the first list, then those of the
    second; each holds a duplicate, and its message names the duplicate
    and the entry it repeats.  What is raised is a [ValueError] whose text
    is the first of these errors printed as the namedtuple
    [CompareError(source=..., message=..., entry=...)]; nothing is returned
    then. *)
Theorem comparisons_raise_iff_duplicate (entries1 entries2 : list record) :
  Forall has_source entries1 → Forall has_source entries2 →
  ∃ hashes1 errors1 hashes2 errors2,
    hash_entries md5hex set_iter entries1 = Return (hashes1, errors1)
    ∧ hash_entries md5hex set_iter entries2 = Return (hashes2, errors2)
    ∧ Forall2 (λ error p,
                 entry error = p.1
                 ∧ message error
                   = "Duplicate entry: " +:+ py_str (value_of p.1)
                       +:+ " == " +:+ py_str (value_of p.2)
                 ∧ lookup_field "source" (fields_of p.1) = Some (source error))
        (errors1 ++ errors2)
        (duplicates md5hex set_iter [] entries1 ++ duplicates md5hex set_iter [] entries2)
    ∧ (errors1 ++ errors2 ≠ []
       ↔ has_duplicate md5hex set_iter entries1 ∨ has_duplicate md5hex set_iter entries2)
    ∧ match errors1 ++ errors2 with
      | error :: _ =>
          let text :=
            "CompareError(source=" +:+ py_repr (source error)
              +:+ ", message=" +:+ str_repr (message error)
              +:+ ", entry=" +:+ py_repr (value_of (entry error)) +:+ ")" in
          compare entries1 entries2 = Raise (ValueError text)
          ∧ includes entries1 entries2 = Raise (ValueError text)
          ∧ excludes entries1 entries2 = Raise (ValueError text)
      | [] =>
          (∃ r, compare entries1 entries2 = Return r)
          ∧ (∃ r, includes entries1 entries2 = Return r)
          ∧ (∃ r, excludes entries1 entries2 = Return r)
      end.
Proof.
  intros Hs1 Hs2.
  destruct (hash_entries_reports _ Hs1) as (d1 & errs1 & Hr1 & HF1 & Hn1).
  destruct (hash_entries_reports _ Hs2) as (d2 & errs2 & Hr2 & HF2 & Hn2).
  exists d1, errs1, d2, errs2. split; [done|]. split; [done|]. split.
  { apply Forall2_app; [exact HF1|exact HF2]. }
  split.
  { unfold has_duplicate. rewrite <- Hn1, <- Hn2. split.
    - intros Hne. destruct errs1; [|by left]. destruct errs2; [done|by right].
    - intros [Hne|Hne] [-> ->]%app_eq_nil; by apply Hne. }
  unfold compare_entries, includes_entries, excludes_entries.
  rewrite Hr1, Hr2, !bind_Return. cbv beta iota zeta.
  destruct (errs1 ++ errs2) as [|error rest] eqn:E.
  - apply app_eq_nil in E as [-> ->]. rewrite first_error_nil.
    rewrite !getitems_iter, !bind_Return by set_solver.
    repeat split; eexists; rewrite ?getitems_iter, ?bind_Return by set_solver; done.
  - rewrite (first_error_cons _ _ _ _ E), str_error_text. done.
Qed.
(** Without duplicates, the index maps the digest of each entry to it. *)
Lemma latest_NoDup_lookup (d : gmap string record) (entries : list record)
    (e : record) :
  NoDup (H <$> entries) → latest d entries → e ∈ entries → d !! H e = Some e.
Proof.
  intros Hnd Hd Hin. rewrite (Hd (H e)).
  destruct (previous md5hex set_iter (H e) entries) as [e'|] eqn:Hp.
  - apply previous_Some in Hp as [He' Hin']. f_equal.
    clear Hd. induction entries as [|x l IH]; [by apply elem_of_nil in Hin|].
    rewrite fmap_cons in Hnd. apply NoDup_cons in Hnd as [Hx Hl].
    apply elem_of_cons in Hin as [->|Hin], Hin' as [->|Hin']; try done.
    + exfalso. apply Hx. rewrite <- He'. by apply list_elem_of_fmap_2.
    + exfalso. apply Hx. rewrite He'. by apply list_elem_of_fmap_2.
    + by apply IH.
  - apply previous_None in Hp. exfalso. apply Hp. by apply list_elem_of_fmap_2.
Qed.

Lemma lookup_digests (d : gmap string record) (entries : list record) :
  NoDup (H <$> entries) → latest d entries →
  (λ k, default (MkRecord "" []) (d !! k)) <$> (H <$> entries) = entries.
Proof.
  intros Hnd Hd. rewrite <- list_fmap_compose.
  rewrite <- (list_fmap_id entries) at 2. apply list_fmap_ext.
  intros i e He. apply list_elem_of_lookup_2 in He.
  simpl. by rewrite (latest_NoDup_lookup d entries e).
Qed.

Lemma fmap_nil_iff {A B : Type} (f : A → B) (l : list A) : f <$> l = [] ↔ l = [].
Proof. by destruct l. Qed.

(** C10. On two lists without duplicates, [compare_entries] returns, and
    its boolean is true exactly when both lists of missing entries are
    empty. *)
Theorem compare_success_iff_nothing_missing (entries1 entries2 : list record) :
  NoDup (H <$> entries1) → NoDup (H <$> entries2) →
  ∃ same missing1 missing2,
    compare entries1 entries2 = Return (same, missing1, missing2)
    ∧ (same = true ↔ missing1 = [] ∧ missing2 = []).
Proof.
  intros Hn1 Hn2.
  destruct (hash_entries_NoDup _ Hn1) as (d1 & Hr1 & Hd1).
  destruct (hash_entries_NoDup _ Hn2) as (d2 & Hr2 & Hd2).
  unfold compare_entries.
  rewrite Hr1, Hr2, !bind_Return. cbv beta iota zeta.
  rewrite first_error_nil, !getitems_iter, !bind_Return by set_solver.
  eexists _, _, _. split; [done|].
  rewrite bool_decide_eq_true. unfold sorted_entries.
  rewrite <- !(Permutation_nil_r (py_sorted _ _ _)), !py_sorted_Permutation.
  rewrite !Permutation_nil_r, !fmap_nil_iff, !set_iter_nil.
  split.
  - intros ->. split; set_solver.
  - intros [E1 E2]. apply set_eq. intros k. split; intros Hk.
    + destruct (decide (k ∈ dom d2)); [done|]. set_solver.
    + destruct (decide (k ∈ dom d1)); [done|]. set_solver.
Qed.

(** C9. A non-empty list without duplicates is not disjoint from itself:
    [excludes_entries] returns false and the entries of the list, all of
    them and each once, sorted by [entry_sortkey]. *)
Theorem excludes_self `{!StrictTotal key_lt} (entries : list record) :
  entries ≠ [] → NoDup (H <$> entries) →
  ∃ extra,
    excludes entries entries = Return (false, extra)
    ∧ extra ≡ₚ entries
    ∧ StronglySorted (in_order entry_sortkey key_lt) extra.
Proof.
  intros Hne Hnd.
  destruct (hash_entries_NoDup _ Hnd) as (d & Hr & Hd).
  pose proof (latest_of_dom _ _ _ _ Hd) as Hdom.
  unfold excludes_entries.
  rewrite Hr, !bind_Return. cbv beta iota zeta.
  rewrite first_error_nil, !getitems_iter, !bind_Return by set_solver.
  eexists. split; [|split].
  - f_equal. f_equal. rewrite bool_decide_eq_true_2; [done|].
    destruct entries as [|e l]; [done|]. rewrite Hdom. unfold digests.
    rewrite fmap_cons, list_to_set_cons. set_solver.
  - unfold sorted_entries. rewrite py_sorted_Permutation, set_iter_perm.
    replace (dom d ∩ dom d) with (dom d) by set_solver.
    rewrite Hdom. unfold digests. rewrite elements_list_to_set by done.
    by rewrite lookup_digests.
  - apply py_sorted_StronglySorted, _.
Qed.
End CompareFacts.

(** ** More on what enters the digest *)
Section Names.
Variable md5hex : string → string.
Variable set_iter : list (list string) → gset string → list string.

Local Abbreviation digest := (stable_hash_namedtuple md5hex set_iter).

(** X1. Neither the type name of a record nor the names of its fields
    enter the digest; a name only decides whether the field is skipped.  Two
    records of any types whose fields are, in order, skipped alike and equal
    in value where not skipped have the same digest. *)
Theorem names_do_not_enter_digest (ignore : gset string) (r1 r2 : record) :
  Forall2 (λ a b, (a.1 ∈ ignore ↔ b.1 ∈ ignore) ∧ (a.1 ∉ ignore → a.2 = b.2))
    (fields_of r1) (fields_of r2) →
  digest r1 ignore = digest r2 ignore.
Proof.
  intros HF. unfold stable_hash_namedtuple. f_equal.
  generalize md5_new. induction HF as [|[n1 v1] [n2 v2] l1 l2 [Hi Hv] _ IH]; intros h; [done|].
  simpl in Hi, Hv.
  change (fold_left ?f (?a :: ?l) ?h) with (fold_left f l (f h a)).
  rewrite <- IH. f_equal. unfold hash_attr.
  destruct (decide (n1 ∈ ignore)) as [Hin|Hin], (decide (n2 ∈ ignore)) as [Hin'|Hin'];
    try done; try (by apply Hi in Hin); try (by apply Hi in Hin').
  by rewrite Hv.
Qed.
End Names.

Section Contributions.
Variable md5hex : string → string.
Variable set_iter : list (list string) → gset string → list string.
Hypothesis set_iter_perm : ∀ hist X, set_iter hist X ≡ₚ elements X.

Local Abbreviation digest := (stable_hash_namedtuple md5hex set_iter).

(** X2. A field that is skipped, that holds an empty list or set, or whose
    value has the empty [str()], adds nothing to the hash object: the record
    has the digest of the record without that field. *)
Theorem empty_field_adds_nothing (ignore : gset string) (tn : string)
    (pre post : list (string * value)) (name : string) (v : value) :
  name ∈ ignore ∨ (∃ kind, v = PyColl kind []) ∨ (∃ r, v = PyObj "" r) →
  digest (MkRecord tn (pre ++ (name, v) :: post)) ignore
  = digest (MkRecord tn (pre ++ post)) ignore.
Proof.
  intros Hv. unfold stable_hash_namedtuple. simpl fields_of.
  rewrite !fold_left_app.
  change (fold_left ?f (?a :: ?l) ?h) with (fold_left f l (f h a)).
  do 2 f_equal. unfold hash_attr.
  destruct (decide (name ∈ ignore)); [done|].
  destruct Hv as [?|[[kind ->]|[r ->]]]; [done| |].
  - unfold update_sorted. simpl.
    assert (set_iter [[]] (∅ : gset string) = []) as ->; [|done].
    apply Permutation_nil_r. by rewrite set_iter_perm, elements_empty.
  - unfold update. simpl. apply str_app_nil_r.
Qed.

(** X3. A list or set field enters the digest through the set of the
    digests of its elements only: two collections, of either kind and of any
    lengths, whose elements have the same digests as sets give the record
    the same digest. *)
Theorem collection_enters_as_set_of_subdigests (ignore : gset string) (tn : string)
    (pre post : list (string * value)) (name : string) (kind1 kind2 : coll_kind)
    (xs ys : list value) :
  list_to_set (subhash md5hex set_iter ignore <$> xs)
    =@{gset string} list_to_set (subhash md5hex set_iter ignore <$> ys) →
  digest (MkRecord tn (pre ++ (name, PyColl kind1 xs) :: post)) ignore
  = digest (MkRecord tn (pre ++ (name, PyColl kind2 ys) :: post)) ignore.
Proof.
  intros E. apply digest_field_congr. intros h. unfold hash_attr.
  destruct (decide (name ∈ ignore)); [done|].
  by apply update_sorted_same_set.
Qed.
End Contributions.

(** ** More on the digest index *)
Section IndexMore.
Variable md5hex : string → string.
Variable set_iter : list (list string) → gset string → list string.

Local Abbreviation H := (hash_entry md5hex set_iter).

(** X4. Whatever [hash_entries] returns is an index of the list by digest:
    its keys are the digests of the entries, each key is the digest of the
    record stored under it, that record is an entry of the list, and the
    digest of every entry is a key. *)
Theorem index_maps_digests_to_entries (entries : list record)
    (entry_hash_dict : gmap string record) (errors : list CompareError) :
  hash_entries md5hex set_iter entries = Return (entry_hash_dict, errors) →
  dom entry_hash_dict = digests md5hex set_iter entries
  ∧ (∀ h e, entry_hash_dict !! h = Some e → e ∈ entries ∧ H e = h)
  ∧ (∀ e, e ∈ entries → ∃ e', entry_hash_dict !! H e = Some e' ∧ H e' = H e).
Proof.
  intros Hr.
  destruct (hash_entries_spec md5hex set_iter entries)
    as [(d & errs & Hr' & Hd & _)|[Hr' _]]; rewrite Hr' in Hr; [|done].
  injection Hr as <- <-. split; [by apply latest_of_dom|]. split.
  - intros h e He. rewrite (Hd h) in He. apply previous_Some in He. tauto.
  - intros e Hin.
    destruct (proj2 (previous_is_Some md5hex set_iter (H e) entries)) as [e' He'].
    { by apply list_elem_of_fmap_2. }
    exists e'. rewrite (Hd (H e)). split; [done|].
    apply previous_Some in He' as [He' _]. exact He'.
Qed.

(** X5. [hash_entries] reads [source] from duplicates only.  A list in
    which an entry whose digest occurred earlier has no [source] attribute
    is not indexed: the [AttributeError] of that lookup is raised.  A list
    whose digests all differ is indexed without an error, one key for each
    entry, whether or not its entries have a [source]. *)
Theorem source_is_read_from_duplicates_only (entries : list record) :
  (Exists (λ p, ¬ has_source p.1) (duplicates md5hex set_iter [] entries) →
   hash_entries md5hex set_iter entries = Raise (AttributeError "source"))
  ∧ (NoDup (H <$> entries) →
     ∃ entry_hash_dict,
       hash_entries md5hex set_iter entries = Return (entry_hash_dict, [])
       ∧ size entry_hash_dict = length entries).
Proof.
  destruct (hash_entries_spec md5hex set_iter entries)
    as [(d & errs & Hr & Hd & HF)|[Hr HE]]; rewrite Hr.
  - split.
    + intros HE. exfalso. apply Exists_exists in HE as (p & Hin & Hp).
      apply list_elem_of_lookup in Hin as [i Hi].
      destruct (Forall2_lookup_r _ _ _ _ _ HF Hi) as (err & _ & _ & _ & Hsrc).
      apply Hp. unfold has_source. by rewrite Hsrc.
    + intros Hnd. pose proof (index_size _ _ _ _ Hd) as Hs.
      assert (duplicates md5hex set_iter [] entries = []) as Hnil.
      { apply duplicates_nil. split; [done|]. intros e _. simpl. apply not_elem_of_nil. }
      rewrite Hnil in HF, Hs. apply Forall2_nil_inv_r in HF as ->.
      exists d. split; [done|]. simpl in Hs. lia.
  - split; [done|]. intros Hnd. exfalso.
    assert (duplicates md5hex set_iter [] entries = []) as Hnil.
    { apply duplicates_nil. split; [done|]. intros e _. simpl. apply not_elem_of_nil. }
    rewrite Hnil in HE. by apply Exists_nil in HE.
Qed.

(** X6. Two entries that differ only in the ignored fields are duplicates
    of each other: the index of the two holds the second one alone, and the
    one error holds the second, its [source] and the text
    [Duplicate entry: ] followed by the second entry, [ == ] and the
    first. *)
Theorem entries_equal_up_to_ignored_fields_collide (e1 e2 : record) (src : value) :
  same_except_ignored {[ "source"; "entry"; "diff_amount" ]} (fields_of e1) (fields_of e2) →
  lookup_field "source" (fields_of e2) = Some src →
  hash_entries md5hex set_iter [e1; e2]
  = Return ({[ H e2 := e2 ]},
            [CompareError_ src
               ("Duplicate entry: " +:+ py_str (value_of e2)
                  +:+ " == " +:+ py_str (value_of e1))
               e2]).
Proof.
  intros HF Hsrc.
  assert (H e1 = H e2) as E.
  { unfold hash_entry, stable_hash_namedtuple. f_equal.
    by apply fold_same_except_ignored. }
  unfold hash_entries. cbn [hash_entries_loop]. unfold hash_entries_step.
  rewrite lookup_empty, !bind_Return. cbv beta iota zeta.
  rewrite E, lookup_insert_eq. unfold getattr. rewrite Hsrc, !bind_Return.
  cbv beta iota. change ([] ++ ?l) with l. cbv iota.
  by rewrite insert_insert_eq, insert_empty.
Qed.
End IndexMore.

(** ** What the comparisons return *)
Section CompareResults.
Variable md5hex : string → string.
Variable set_iter : list (list string) → gset string → list string.
Variable str_repr : string → string.
Context {K : Type}.
Variable entry_sortkey : record → K.
Variable key_lt : K → K → bool.
Hypothesis set_iter_perm : ∀ hist X, set_iter hist X ≡ₚ elements X.

Local Abbreviation H := (hash_entry md5hex set_iter).
Local Abbreviation index := (hash_entries md5hex set_iter).
Local Abbreviation latest := (latest_of md5hex set_iter).
Local Abbreviation keys_of := (digests md5hex set_iter).
Local Abbreviation compare := (compare_entries md5hex set_iter str_repr entry_sortkey key_lt).
Local Abbreviation includes := (includes_entries md5hex set_iter str_repr entry_sortkey key_lt).
Local Abbreviation excludes := (excludes_entries md5hex set_iter str_repr entry_sortkey key_lt).
Local Abbreviation sorted := (sorted_entries entry_sortkey key_lt).

Lemma filter_ext_in {A : Type} (P Q : A → Prop) `{!∀ x, Decision (P x), !∀ x, Decision (Q x)}
    (l : list A) :
  (∀ x, x ∈ l → (P x ↔ Q x)) → filter P l = filter Q l.
Proof.
  induction l as [|a l IH]; intros HPQ; [done|].
  rewrite !filter_cons. rewrite IH by (intros x Hx; apply HPQ; by right).
  destruct (decide (P a)) as [Hp|Hp], (decide (Q a)) as [Hq|Hq]; try done.
  - exfalso. apply Hq, (HPQ a); [left|done].
  - exfalso. apply Hp, (HPQ a); [left|done].
Qed.

(** The records an index of a list without duplicates holds under a set of
    keys are the entries whose digest is in the set. *)
Lemma indexed_filter (hist : list (list string)) (d : gmap string record)
    (entries : list record) (X : gset string) :
  NoDup (H <$> entries) → latest d entries → X ⊆ dom d →
  (λ k, default (MkRecord "" []) (d !! k)) <$> set_iter hist X
  ≡ₚ filter (λ e, H e ∈ X) entries.
Proof.
  intros Hnd Hd Hsub. rewrite set_iter_perm.
  trans ((λ k, default (MkRecord "" []) (d !! k)) <$> (H <$> filter (λ e, H e ∈ X) entries)).
  - apply fmap_Permutation, NoDup_Permutation.
    + apply NoDup_elements.
    + eapply sublist_NoDup; [exact Hnd|]. apply fmap_sublist, sublist_filter.
    + intros k. rewrite elem_of_elements, list_elem_of_fmap. split.
      * intros Hk. assert (k ∈ dom d) as Hkd by by apply Hsub.
        rewrite (latest_of_dom _ _ _ _ Hd) in Hkd. unfold digests in Hkd.
        apply elem_of_list_to_set, list_elem_of_fmap in Hkd as (e & -> & He).
        exists e. split; [done|]. by apply list_elem_of_filter.
      * intros (e & -> & He). by apply list_elem_of_filter in He as [? _].
  - rewrite <- list_fmap_compose.
    rewrite (list_fmap_ext _ id (filter (λ e, H e ∈ X) entries)); [by rewrite list_fmap_id|].
    intros i e He. apply list_elem_of_lookup_2, list_elem_of_filter in He as [_ He].
    simpl. by rewrite (latest_NoDup_lookup md5hex set_iter d entries e).
Qed.

Lemma sorted_nil (l : list record) : sorted l = [] ↔ l = [].
Proof.
  unfold sorted_entries.
  by rewrite <- (Permutation_nil_r (py_sorted _ _ _)), py_sorted_Permutation, Permutation_nil_r.
Qed.

(** The three comparisons on two lists without duplicates, in terms of the
    two indexes. *)
Lemma comparisons_run (entries1 entries2 : list record) :
  NoDup (H <$> entries1) → NoDup (H <$> entries2) →
  ∃ d1 d2,
    latest d1 entries1 ∧ latest d2 entries2
    ∧ compare entries1 entries2
      = Return (bool_decide (dom d1 = dom d2),
                sorted ((λ k, default (MkRecord "" []) (d1 !! k))
                          <$> set_iter [H <$> entries1; H <$> entries2] (dom d1 ∖ dom d2)),
                sorted ((λ k, default (MkRecord "" []) (d2 !! k))
                          <$> set_iter [H <$> entries2; H <$> entries1] (dom d2 ∖ dom d1)))
    ∧ includes entries1 entries2
      = Return (bool_decide (dom d1 ⊆ dom d2),
                sorted ((λ k, default (MkRecord "" []) (d1 !! k))
                          <$> set_iter [H <$> entries1; H <$> entries2] (dom d1 ∖ dom d2)))
    ∧ excludes entries1 entries2
      = Return (negb (bool_decide (dom d2 ∩ dom d1 ≠ ∅)),
                sorted ((λ k, default (MkRecord "" []) (d1 !! k))
                          <$> set_iter [H <$> entries2; H <$> entries1] (dom d2 ∩ dom d1))).
Proof.
  intros Hn1 Hn2.
  destruct (hash_entries_NoDup md5hex set_iter _ Hn1) as (d1 & Hr1 & Hd1).
  destruct (hash_entries_NoDup md5hex set_iter _ Hn2) as (d2 & Hr2 & Hd2).
  exists d1, d2. split; [done|]. split; [done|].
  unfold compare_entries, includes_entries, excludes_entries.
  rewrite Hr1, Hr2, !bind_Return. cbv beta iota zeta.
  rewrite first_error_nil.
  rewrite !(getitems_iter set_iter set_iter_perm), !bind_Return by set_solver.
  done.
Qed.
Lemma digest_in_keys (entries : list record) (e : record) :
  e ∈ entries → H e ∈ keys_of entries.
Proof. intros He. unfold digests. by apply elem_of_list_to_set, list_elem_of_fmap_2. Qed.

(** X7. On two lists without duplicates [compare_entries] returns: the
    boolean says whether the two lists have the same digests; [missing1]
    holds, each once, the entries of the first list whose digest no entry
    of the second has, [missing2] likewise; both are sorted by
    [entry_sortkey]. *)
Theorem compare_entries_returns `{!StrictTotal key_lt} (entries1 entries2 : list record) :
  NoDup (H <$> entries1) → NoDup (H <$> entries2) →
  ∃ same missing1 missing2,
    compare entries1 entries2 = Return (same, missing1, missing2)
    ∧ (same = true ↔ keys_of entries1 = keys_of entries2)
    ∧ missing1 ≡ₚ filter (λ e, H e ∉ keys_of entries2) entries1
    ∧ missing2 ≡ₚ filter (λ e, H e ∉ keys_of entries1) entries2
    ∧ StronglySorted (in_order entry_sortkey key_lt) missing1
    ∧ StronglySorted (in_order entry_sortkey key_lt) missing2.
Proof.
  intros Hn1 Hn2.
  destruct (comparisons_run _ _ Hn1 Hn2) as (d1 & d2 & Hd1 & Hd2 & Hc & _).
  pose proof (latest_of_dom _ _ _ _ Hd1) as Hk1.
  pose proof (latest_of_dom _ _ _ _ Hd2) as Hk2.
  eexists _, _, _. split; [exact Hc|].
  split; [by rewrite bool_decide_eq_true, Hk1, Hk2|].
  unfold sorted_entries.
  split; [|split; [|split; apply py_sorted_StronglySorted, _]].
  - assert (dom d1 ∖ dom d2 ⊆ dom d1) as Hs by set_solver.
    rewrite py_sorted_Permutation, (indexed_filter _ _ _ _ Hn1 Hd1 Hs).
    erewrite filter_ext_in; [done|]. intros e He.
    apply digest_in_keys in He. rewrite <- Hk1, <- Hk2 in *. set_solver.
  - assert (dom d2 ∖ dom d1 ⊆ dom d2) as Hs by set_solver.
    rewrite py_sorted_Permutation, (indexed_filter _ _ _ _ Hn2 Hd2 Hs).
    erewrite filter_ext_in; [done|]. intros e He.
    apply digest_in_keys in He. rewrite <- Hk1, <- Hk2 in *. set_solver.
Qed.

(** X8. On two lists without duplicates [includes_entries] returns: the
    boolean says whether every digest of the first list is a digest of the
    second, which is the case exactly when nothing is missing; [missing]
    holds, each once, the entries of the first list whose digest no entry
    of the second has, sorted by [entry_sortkey]. *)
Theorem includes_entries_returns `{!StrictTotal key_lt}
    (subset_entries entries : list record) :
  NoDup (H <$> subset_entries) → NoDup (H <$> entries) →
  ∃ includes_ missing,
    includes subset_entries entries = Return (includes_, missing)
    ∧ (includes_ = true ↔ keys_of subset_entries ⊆ keys_of entries)
    ∧ (includes_ = true ↔ missing = [])
    ∧ missing ≡ₚ filter (λ e, H e ∉ keys_of entries) subset_entries
    ∧ StronglySorted (in_order entry_sortkey key_lt) missing.
Proof.
  intros Hn1 Hn2.
  destruct (comparisons_run _ _ Hn1 Hn2) as (d1 & d2 & Hd1 & Hd2 & _ & Hi & _).
  pose proof (latest_of_dom _ _ _ _ Hd1) as Hk1.
  pose proof (latest_of_dom _ _ _ _ Hd2) as Hk2.
  eexists _, _. split; [exact Hi|].
  split; [by rewrite bool_decide_eq_true, Hk1, Hk2|].
  split.
  { rewrite bool_decide_eq_true, sorted_nil, fmap_nil_iff, (set_iter_nil set_iter set_iter_perm).
    split; [set_solver|]. intros E k Hk.
    destruct (decide (k ∈ dom d2)); [done|]. set_solver. }
  unfold sorted_entries.
  split; [|apply py_sorted_StronglySorted, _].
  assert (dom d1 ∖ dom d2 ⊆ dom d1) as Hs by set_solver.
  rewrite py_sorted_Permutation, (indexed_filter _ _ _ _ Hn1 Hd1 Hs).
  erewrite filter_ext_in; [done|]. intros e He.
  apply digest_in_keys in He. rewrite <- Hk1, <- Hk2 in *. set_solver.
Qed.

(** X9. On two lists without duplicates [excludes_entries] returns: the
    boolean says whether the two lists share no digest, which is the case
    exactly when [extra] is empty; [extra] holds, each once, the entries of
    the first list whose digest an entry of the second has, sorted by
    [entry_sortkey]. *)
Theorem excludes_entries_returns `{!StrictTotal key_lt}
    (subset_entries entries : list record) :
  NoDup (H <$> subset_entries) → NoDup (H <$> entries) →
  ∃ excludes_ extra,
    excludes subset_entries entries = Return (excludes_, extra)
    ∧ (excludes_ = true ↔ keys_of subset_entries ## keys_of entries)
    ∧ (excludes_ = true ↔ extra = [])
    ∧ extra ≡ₚ filter (λ e, H e ∈ keys_of entries) subset_entries
    ∧ StronglySorted (in_order entry_sortkey key_lt) extra.
Proof.
  intros Hn1 Hn2.
  destruct (comparisons_run _ _ Hn1 Hn2) as (d1 & d2 & Hd1 & Hd2 & _ & _ & Hx).
  pose proof (latest_of_dom _ _ _ _ Hd1) as Hk1.
  pose proof (latest_of_dom _ _ _ _ Hd2) as Hk2.
  eexists _, _. split; [exact Hx|].
  assert (negb (bool_decide (dom d2 ∩ dom d1 ≠ ∅)) = true ↔ dom d2 ∩ dom d1 = ∅) as Hb.
  { rewrite negb_true_iff, bool_decide_eq_false. split; [apply dec_stable|by intros ??]. }
  split; [rewrite Hb, <- Hk1, <- Hk2; set_solver|].
  split.
  { by rewrite Hb, sorted_nil, fmap_nil_iff, (set_iter_nil set_iter set_iter_perm). }
  unfold sorted_entries.
  split; [|apply py_sorted_StronglySorted, _].
  assert (dom d2 ∩ dom d1 ⊆ dom d1) as Hs by set_solver.
  rewrite py_sorted_Permutation, (indexed_filter _ _ _ _ Hn1 Hd1 Hs).
  erewrite filter_ext_in; [done|]. intros e He.
  apply digest_in_keys in He. rewrite <- Hk1, <- Hk2 in *. set_solver.
Qed.
Lemma same_fields_same_digests (entries1 entries2 : list record) :
  Forall2 (λ a b, same_except_ignored {[ "source"; "entry"; "diff_amount" ]}
                    (fields_of a) (fields_of b)) entries1 entries2 →
  H <$> entries1 = H <$> entries2.
Proof.
  induction 1 as [|a b l1 l2 Hab _ IH]; [done|].
  rewrite !fmap_cons, IH. f_equal.
  unfold hash_entry, stable_hash_namedtuple. f_equal.
  by apply fold_same_except_ignored.
Qed.

(** X10. The comparison disregards the ignored fields, the file location
    [source] among them: two lists without duplicates whose entries agree,
    one by one, outside the ignored fields compare equal, with nothing
    missing on either side, and each includes the other. *)
Theorem comparison_disregards_ignored_fields (entries1 entries2 : list record) :
  Forall2 (λ a b, same_except_ignored {[ "source"; "entry"; "diff_amount" ]}
                    (fields_of a) (fields_of b)) entries1 entries2 →
  NoDup (H <$> entries1) →
  compare entries1 entries2 = Return (true, [], [])
  ∧ includes entries1 entries2 = Return (true, [])
  ∧ includes entries2 entries1 = Return (true, []).
Proof.
  intros HF Hn1. pose proof (same_fields_same_digests _ _ HF) as E.
  assert (NoDup (H <$> entries2)) as Hn2 by by rewrite <- E.
  destruct (comparisons_run _ _ Hn1 Hn2) as (d1 & d2 & Hd1 & Hd2 & Hc & Hi & _).
  destruct (comparisons_run _ _ Hn2 Hn1) as (d2' & d1' & Hd2' & Hd1' & _ & Hi' & _).
  assert (∀ (d d' : gmap string record) l l',
            latest d l → latest d' l' → H <$> l = H <$> l' → dom d = dom d') as Hdom.
  { intros d d' l l' Hd Hd' El.
    rewrite (latest_of_dom _ _ _ _ Hd), (latest_of_dom _ _ _ _ Hd').
    unfold digests. by rewrite El. }
  pose proof (Hdom _ _ _ _ Hd1 Hd2 E) as Ed.
  pose proof (Hdom _ _ _ _ Hd2' Hd1' (eq_sym E)) as Ed'.
  assert (∀ hist (d : gmap string record) (X : gset string), X = ∅ →
            sorted ((λ k, default (MkRecord "" []) (d !! k)) <$> set_iter hist X) = [])
    as Hnil.
  { intros hist d X ->.
    by rewrite sorted_nil, fmap_nil_iff, (set_iter_nil set_iter set_iter_perm). }
  rewrite Hc, Hi, Hi'.
  rewrite !Hnil by (rewrite ?Ed, ?Ed'; apply difference_diag_L).
  rewrite !bool_decide_eq_true_2; [done|by rewrite Ed'|by rewrite Ed|done].
Qed.

(** X11. A list is included in every list that holds its entries: for two
    lists without duplicates, the first with all its entries in the second,
    [includes_entries] answers true and misses nothing. *)
Theorem includes_entries_of_sublist (subset_entries entries : list record) :
  NoDup (H <$> subset_entries) → NoDup (H <$> entries) →
  subset_entries ⊆ entries →
  includes subset_entries entries = Return (true, []).
Proof.
  intros Hn1 Hn2 Hsub.
  destruct (comparisons_run _ _ Hn1 Hn2) as (d1 & d2 & Hd1 & Hd2 & _ & Hi & _).
  pose proof (latest_of_dom _ _ _ _ Hd1) as Hk1.
  pose proof (latest_of_dom _ _ _ _ Hd2) as Hk2.
  assert (dom d1 ⊆ dom d2) as Hd.
  { rewrite Hk1, Hk2. unfold digests. intros k.
    rewrite !elem_of_list_to_set, !list_elem_of_fmap.
    intros (e & -> & He). exists e. split; [done|]. by apply Hsub. }
  rewrite Hi, bool_decide_eq_true_2 by done. do 2 f_equal.
  rewrite sorted_nil, fmap_nil_iff, (set_iter_nil set_iter set_iter_perm). set_solver.
Qed.

(** X12. The entries of a list split between what [includes_entries]
    misses and what [excludes_entries] finds: on two lists without
    duplicates, [missing] and [extra] together hold every entry of the first
    list once. *)
Theorem missing_and_extra_partition (subset_entries entries : list record) :
  NoDup (H <$> subset_entries) → NoDup (H <$> entries) →
  ∃ includes_ missing excludes_ extra,
    includes subset_entries entries = Return (includes_, missing)
    ∧ excludes subset_entries entries = Return (excludes_, extra)
    ∧ missing ++ extra ≡ₚ subset_entries.
Proof.
  intros Hn1 Hn2.
  destruct (comparisons_run _ _ Hn1 Hn2) as (d1 & d2 & Hd1 & Hd2 & _ & Hi & Hx).
  pose proof (latest_of_dom _ _ _ _ Hd1) as Hk1.
  eexists _, _, _, _. split; [exact Hi|]. split; [exact Hx|].
  unfold sorted_entries. rewrite !py_sorted_Permutation.
  assert (dom d1 ∖ dom d2 ⊆ dom d1) as Hs1 by set_solver.
  assert (dom d2 ∩ dom d1 ⊆ dom d1) as Hs2 by set_solver.
  rewrite (indexed_filter _ _ _ _ Hn1 Hd1 Hs1), (indexed_filter _ _ _ _ Hn1 Hd1 Hs2).
  rewrite (filter_ext_in (λ e, H e ∈ dom d1 ∖ dom d2) (λ e, ¬ H e ∈ dom d2)).
  2:{ intros e He. apply digest_in_keys in He. rewrite <- Hk1 in He. set_solver. }
  rewrite (filter_ext_in (λ e, H e ∈ dom d2 ∩ dom d1) (λ e, H e ∈ dom d2)).
  2:{ intros e He. apply digest_in_keys in He. rewrite <- Hk1 in He. set_solver. }
  rewrite Permutation_app_comm. apply filter_app_complement.
Qed.

(** X13. The comparisons never fail in their own bookkeeping.  Whatever a
    comparison raises, it is not a [KeyError], as every key looked up in an
    index is one of its keys; not an [IndexError], as [(errors1 + errors2)[0]]
    is read only when there is an error; and not an [AssertionError], as
    an index built without an error has as many keys as the list has
    entries. *)
Theorem comparisons_never_fail_internally (entries1 entries2 : list record) (e : exn) :
  compare entries1 entries2 = Raise e
  ∨ includes entries1 entries2 = Raise e
  ∨ excludes entries1 entries2 = Raise e →
  (∀ key, e ≠ KeyError key) ∧ e ≠ IndexError ∧ (∀ sizes, e ≠ AssertionError sizes).
Proof.
  unfold compare_entries, includes_entries, excludes_entries.
  destruct (hash_entries_spec md5hex set_iter entries1)
    as [(d1 & errs1 & Hr1 & _ & _)|[Hr1 _]]; rewrite Hr1.
  2:{ by intros [[= <-]|[[= <-]|[= <-]]]. }
  destruct (hash_entries_spec md5hex set_iter entries2)
    as [(d2 & errs2 & Hr2 & _ & _)|[Hr2 _]]; rewrite Hr2, !bind_Return; cbv beta iota zeta.
  2:{ by intros [[= <-]|[[= <-]|[= <-]]]. }
  destruct (errs1 ++ errs2) as [|error rest] eqn:E.
  - apply app_eq_nil in E as [-> ->]. rewrite first_error_nil.
    rewrite !(getitems_iter set_iter set_iter_perm), !bind_Return by set_solver.
    by intros [?|[?|?]].
  - rewrite (first_error_cons _ _ _ _ _ E).
    by intros [[= <-]|[[= <-]|[= <-]]].
Qed.
End CompareResults.

(** ** How the comparisons relate *)
Section CompareAlgebra.
Variable md5hex : string → string.
Variable set_iter : list (list string) → gset string → list string.
Variable str_repr : string → string.
Context {K : Type}.
Variable entry_sortkey : record → K.
Variable key_lt : K → K → bool.

Local Abbreviation H := (hash_entry md5hex set_iter).
Local Abbreviation index := (hash_entries md5hex set_iter).
Local Abbreviation compare := (compare_entries md5hex set_iter str_repr entry_sortkey key_lt).
Local Abbreviation includes := (includes_entries md5hex set_iter str_repr entry_sortkey key_lt).
Local Abbreviation sorted := (sorted_entries entry_sortkey key_lt).

(** When [compare_entries] returns, both lists were indexed without errors
    and both lookups went through. *)
Lemma compare_returns_inv (entries1 entries2 : list record)
    (r : bool * list record * list record) :
  compare entries1 entries2 = Return r →
  ∃ d1 d2 m1 m2,
    index entries1 = Return (d1, [])
    ∧ index entries2 = Return (d2, [])
    ∧ getitems d1 (set_iter [H <$> entries1; H <$> entries2] (dom d1 ∖ dom d2)) = Return m1
    ∧ getitems d2 (set_iter [H <$> entries2; H <$> entries1] (dom d2 ∖ dom d1)) = Return m2
    ∧ r = (bool_decide (dom d1 = dom d2), sorted m1, sorted m2).
Proof.
  unfold compare_entries.
  destruct (index entries1) as [[d1 errs1]|e1] eqn:Hr1; [|done].
  destruct (index entries2) as [[d2 errs2]|e2] eqn:Hr2; [|done].
  rewrite !bind_Return. cbv beta iota zeta.
  destruct errs1 as [|err1 errs1]; [|done].
  destruct errs2 as [|err2 errs2]; [|done].
  rewrite first_error_nil.
  destruct (getitems d1 _) as [m1|] eqn:Hm1; [|done].
  destruct (getitems d2 _) as [m2|] eqn:Hm2; [|done].
  rewrite !bind_Return. intros [= <-]. by exists d1, d2, m1, m2.
Qed.

(** X14. [compare_entries] is symmetric: when it returns on two lists, it
    returns on the two lists exchanged the same boolean and the two lists of
    missing entries exchanged. *)
Theorem compare_entries_symmetric (entries1 entries2 : list record)
    (same : bool) (missing1 missing2 : list record) :
  compare entries1 entries2 = Return (same, missing1, missing2) →
  compare entries2 entries1 = Return (same, missing2, missing1).
Proof.
  intros (d1 & d2 & m1 & m2 & Hr1 & Hr2 & Hm1 & Hm2 & [= -> -> ->])%compare_returns_inv.
  unfold compare_entries. rewrite Hr1, Hr2, !bind_Return. cbv beta iota zeta.
  rewrite first_error_nil, Hm2, bind_Return, Hm1, bind_Return.
  do 3 f_equal. apply bool_decide_ext. by split.
Qed.

(** X15. Two lists compare equal exactly when each includes the other: when
    [compare_entries] returns, [includes_entries] returns in both
    directions, its two lists of missing entries are [missing1] and
    [missing2], and the boolean of the comparison is the conjunction of the
    two booleans. *)
Theorem compare_is_mutual_inclusion (entries1 entries2 : list record)
    (same : bool) (missing1 missing2 : list record) :
  compare entries1 entries2 = Return (same, missing1, missing2) →
  ∃ includes12 includes21,
    includes entries1 entries2 = Return (includes12, missing1)
    ∧ includes entries2 entries1 = Return (includes21, missing2)
    ∧ same = includes12 && includes21.
Proof.
  intros (d1 & d2 & m1 & m2 & Hr1 & Hr2 & Hm1 & Hm2 & [= -> -> ->])%compare_returns_inv.
  unfold includes_entries. rewrite Hr1, Hr2, !bind_Return. cbv beta iota zeta.
  rewrite first_error_nil, Hm1, Hm2, !bind_Return.
  eexists _, _. split; [done|]. split; [done|].
  destruct (decide (dom d1 = dom d2)) as [E|E].
  - rewrite !bool_decide_eq_true_2; [done|by rewrite E..|done].
  - rewrite (bool_decide_eq_false_2 _ E). symmetry. apply andb_false_iff.
    rewrite !bool_decide_eq_false.
    destruct (decide (dom d1 ⊆ dom d2)) as [S|S]; [|by left]. right.
    intros S'. apply E. set_solver.
Qed.
End CompareAlgebra.

(** ** The model at work: real MD5 on sample entries *)

Lemma concrete_set_iter_perm (hist : list (list string)) (X : gset string) :
  Concrete.set_iter hist X ≡ₚ elements X.
Proof. done. Qed.

(** C1, refuted as stated: two notes that differ only in the ignored field
    [entry] of the posting they hold directly have different digests. *)
Lemma nested_ignored_field_changes_digest :
  same_except_ignored {[ "source"; "entry"; "diff_amount" ]}
    [("entry", py_text "T1"); ("account", py_text "Assets:Cash")]
    [("entry", py_text "T2"); ("account", py_text "Assets:Cash")]
  ∧ Concrete.hash_entry (Concrete.note "T1") ≠ Concrete.hash_entry (Concrete.note "T2").
Proof.
  split.
  - unfold same_except_ignored. same_fields.
  - vm_compute. discriminate.
Qed.

(** C1, as the code has it, on two transactions whose postings differ in
    the ignored field [entry]. *)
Lemma nested_record_hashing_witness :
  field_same {[ "source"; "entry"; "diff_amount" ]}
    (PyList [Concrete.posting "T1" "Assets:Cash"; Concrete.posting "T1" "Expenses:Food"])
    (PyList [Concrete.posting "T2" "Assets:Cash"; Concrete.posting "T2" "Expenses:Food"])
  ∧ Concrete.hash_entry (Concrete.transaction "ledger:1" "2014-01-01"
        [Concrete.posting "T1" "Assets:Cash"; Concrete.posting "T1" "Expenses:Food"])
    = Concrete.hash_entry (Concrete.transaction "ledger:1" "2014-01-01"
        [Concrete.posting "T2" "Assets:Cash"; Concrete.posting "T2" "Expenses:Food"]).
Proof.
  assert (field_same {[ "source"; "entry"; "diff_amount" ]}
    (PyList [Concrete.posting "T1" "Assets:Cash"; Concrete.posting "T1" "Expenses:Food"])
    (PyList [Concrete.posting "T2" "Assets:Cash"; Concrete.posting "T2" "Expenses:Food"]))
    as HF.
  { simpl. apply List.Forall2_cons; [|apply List.Forall2_cons; [|apply List.Forall2_nil]];
      (split; [reflexivity|unfold same_except_ignored; same_fields]). }
  split; [exact HF|].
  exact (nested_record_hashing MD5.hexdigest Concrete.set_iter
           {[ "source"; "entry"; "diff_amount" ]} "Transaction"
           [("source", py_text "ledger:1"); ("date", py_text "2014-01-01")] []
           "postings" _ _ HF).
Defined.

(** C2, refuted as stated: two events that differ in the non-ignored fields
    [type] and [description] feed the hash object the same bytes, whatever
    the digest function, and so have the same digest. *)
Lemma shifted_characters_same_digest :
  lookup_field "type" (fields_of (Concrete.event "ab" "c"))
    ≠ lookup_field "type" (fields_of (Concrete.event "a" "bc"))
  ∧ hash_input MD5.hexdigest Concrete.set_iter (Concrete.event "ab" "c")
      {[ "source"; "entry"; "diff_amount" ]}
    = hash_input MD5.hexdigest Concrete.set_iter (Concrete.event "a" "bc")
        {[ "source"; "entry"; "diff_amount" ]}
  ∧ Concrete.hash_entry (Concrete.event "ab" "c")
    = Concrete.hash_entry (Concrete.event "a" "bc")
  ∧ ∀ md5hex set_iter,
      hash_entry md5hex set_iter (Concrete.event "ab" "c")
      = hash_entry md5hex set_iter (Concrete.event "a" "bc").
Proof.
  split; [by vm_compute|]. split; [by vm_compute|]. split; [by vm_compute|].
  intros md5hex set_iter. unfold hash_entry. by rewrite !stable_hash_input.
Qed.

(** C2, as the code has it, on two transactions with different amounts:
    MD5 tells their inputs apart, and so do their digests. *)
Lemma digests_differ_iff_inputs_differ_witness :
  (MD5.hexdigest (hash_input MD5.hexdigest Concrete.set_iter
                    (Concrete.tx "ledger:1" "2014-01-01" "5")
                    {[ "source"; "entry"; "diff_amount" ]})
   = MD5.hexdigest (hash_input MD5.hexdigest Concrete.set_iter
                      (Concrete.tx "ledger:1" "2014-01-01" "7")
                      {[ "source"; "entry"; "diff_amount" ]}) →
   hash_input MD5.hexdigest Concrete.set_iter (Concrete.tx "ledger:1" "2014-01-01" "5")
     {[ "source"; "entry"; "diff_amount" ]}
   = hash_input MD5.hexdigest Concrete.set_iter (Concrete.tx "ledger:1" "2014-01-01" "7")
       {[ "source"; "entry"; "diff_amount" ]})
  ∧ Concrete.hash_entry (Concrete.tx "ledger:1" "2014-01-01" "5")
    ≠ Concrete.hash_entry (Concrete.tx "ledger:1" "2014-01-01" "7").
Proof.
  assert (MD5.hexdigest (hash_input MD5.hexdigest Concrete.set_iter
                    (Concrete.tx "ledger:1" "2014-01-01" "5")
                    {[ "source"; "entry"; "diff_amount" ]})
   = MD5.hexdigest (hash_input MD5.hexdigest Concrete.set_iter
                      (Concrete.tx "ledger:1" "2014-01-01" "7")
                      {[ "source"; "entry"; "diff_amount" ]}) →
   hash_input MD5.hexdigest Concrete.set_iter (Concrete.tx "ledger:1" "2014-01-01" "5")
     {[ "source"; "entry"; "diff_amount" ]}
   = hash_input MD5.hexdigest Concrete.set_iter (Concrete.tx "ledger:1" "2014-01-01" "7")
       {[ "source"; "entry"; "diff_amount" ]}) as Hinj.
  { intros E. vm_compute in E. discriminate E. }
  split; [exact Hinj|].
  apply (proj2 (proj2 (digests_differ_iff_inputs_differ MD5.hexdigest Concrete.set_iter
                         {[ "source"; "entry"; "diff_amount" ]} _ _ Hinj))).
  vm_compute. discriminate.
Defined.

(** C6 on an [Open] directive with its currencies in two orders. *)
Lemma collection_order_invariant_witness :
  (∀ hist X, Concrete.set_iter hist X ≡ₚ elements X)
  ∧ [py_text "USD"; py_text "CAD"] ≡ₚ [py_text "CAD"; py_text "USD"]
  ∧ Concrete.hash_entry (Concrete.open_ ["USD"; "CAD"])
    = Concrete.hash_entry (Concrete.open_ ["CAD"; "USD"]).
Proof.
  split; [exact concrete_set_iter_perm|]. split; [apply perm_swap|].
  exact (collection_order_invariant MD5.hexdigest Concrete.set_iter concrete_set_iter_perm
           {[ "source"; "entry"; "diff_amount" ]} "Open"
           [("source", py_text "ledger:1"); ("date", py_text "2014-01-01")] []
           "currencies" KList [py_text "USD"; py_text "CAD"] [py_text "CAD"; py_text "USD"]
           (perm_swap _ _ _)).
Defined.

(** C7 on an [Open] directive that names a currency twice. *)
Lemma repeated_element_collapses_witness :
  (∀ hist X, Concrete.set_iter hist X ≡ₚ elements X)
  ∧ Concrete.hash_entry (Concrete.open_ ["CAD"; "USD"; "CAD"])
    = Concrete.hash_entry (Concrete.open_ ["CAD"; "USD"])
  ∧ Concrete.hash_entry (Concrete.open_ ["CAD"; "USD"; "CAD"])
    = Concrete.hash_entry (Concrete.open_ ["USD"; "CAD"]).
Proof.
  split; [exact concrete_set_iter_perm|].
  exact (repeated_element_collapses MD5.hexdigest Concrete.set_iter concrete_set_iter_perm
           {[ "source"; "entry"; "diff_amount" ]} "Open"
           [("source", py_text "ledger:1"); ("date", py_text "2014-01-01")] []
           "currencies" KList (py_text "CAD") [] [py_text "USD"] []).
Defined.

(** C8 on two transactions that differ in their [source]. *)
Lemma ignored_fields_have_no_influence_witness :
  same_except_ignored {[ "source"; "entry"; "diff_amount" ]}
    (fields_of (Concrete.tx "ledger:1" "2014-01-01" "5"))
    (fields_of (Concrete.tx "other:42" "2014-01-01" "5"))
  ∧ Concrete.hash_entry (Concrete.tx "ledger:1" "2014-01-01" "5")
    = Concrete.hash_entry (Concrete.tx "other:42" "2014-01-01" "5").
Proof.
  assert (same_except_ignored {[ "source"; "entry"; "diff_amount" ]}
    (fields_of (Concrete.tx "ledger:1" "2014-01-01" "5"))
    (fields_of (Concrete.tx "other:42" "2014-01-01" "5"))) as HF.
  { unfold same_except_ignored. simpl. same_fields. }
  split; [exact HF|].
  exact (proj1 (ignored_fields_have_no_influence MD5.hexdigest Concrete.set_iter
                  {[ "source"; "entry"; "diff_amount" ]} _ _ HF)).
Defined.

(** Three transactions, the second a duplicate of the first but for its
    [source]. *)
Lemma sample_entries_have_source :
  Forall has_source
    [Concrete.tx "ledger:1" "2014-01-01" "5"; Concrete.tx "ledger:2" "2014-01-01" "5";
     Concrete.tx "ledger:3" "2014-01-02" "7"].
Proof. repeat (apply List.Forall_cons; [by eexists|]). apply List.Forall_nil. Qed.

Lemma other_entries_have_source :
  Forall has_source
    [Concrete.tx "other:1" "2014-01-03" "5"; Concrete.tx "other:2" "2014-01-02" "7"].
Proof. repeat (apply List.Forall_cons; [by eexists|]). apply List.Forall_nil. Qed.

Lemma other_entries_NoDup :
  NoDup (hash_entry MD5.hexdigest Concrete.set_iter
           <$> [Concrete.tx "other:1" "2014-01-03" "5"; Concrete.tx "other:2" "2014-01-02" "7"]).
Proof. apply (bool_decide_unpack _). vm_compute. exact I. Qed.

Lemma more_entries_NoDup :
  NoDup (hash_entry MD5.hexdigest Concrete.set_iter
           <$> [Concrete.tx "more:7" "2014-01-02" "7"; Concrete.tx "more:8" "2014-01-04" "9"]).
Proof. apply (bool_decide_unpack _). vm_compute. exact I. Qed.

(** C3 on the three transactions: one error, two keys, three entries. *)
Example hash_entries_sample :
  match Concrete.hash_entries
          [Concrete.tx "ledger:1" "2014-01-01" "5"; Concrete.tx "ledger:2" "2014-01-01" "5";
           Concrete.tx "ledger:3" "2014-01-02" "7"] with
  | Return (d, errors) =>
      size d = 2 ∧ entry <$> errors = [Concrete.tx "ledger:2" "2014-01-01" "5"]
  | Raise _ => False
  end.
Proof. vm_compute. split; reflexivity. Qed.

(** C4 on the three transactions: the second repeats the first, and the one
    error holds the second, its source and the text naming the second, then
    the first; the index has two keys and keeps the second under the shared
    digest. *)
Lemma one_error_per_duplicate_last_write_wins_witness :
  Forall has_source
    [Concrete.tx "ledger:1" "2014-01-01" "5"; Concrete.tx "ledger:2" "2014-01-01" "5";
     Concrete.tx "ledger:3" "2014-01-02" "7"]
  ∧ ∃ entry_hash_dict,
      Concrete.hash_entries
        [Concrete.tx "ledger:1" "2014-01-01" "5"; Concrete.tx "ledger:2" "2014-01-01" "5";
         Concrete.tx "ledger:3" "2014-01-02" "7"]
      = Return
          (entry_hash_dict,
           [CompareError_
              (py_text "ledger:2")
              "Duplicate entry: Tx(source='ledger:2', date='2014-01-01', amount=5) == Tx(source='ledger:1', date='2014-01-01', amount=5)"
              (Concrete.tx "ledger:2" "2014-01-01" "5")])
      ∧ size entry_hash_dict = 2
      ∧ entry_hash_dict !! Concrete.hash_entry (Concrete.tx "ledger:1" "2014-01-01" "5")
        = Some (Concrete.tx "ledger:2" "2014-01-01" "5").
Proof.
  split; [exact sample_entries_have_source|].
  destruct (one_error_per_duplicate_last_write_wins MD5.hexdigest Concrete.set_iter _
              sample_entries_have_source) as (d & errs & Hr & HF & _ & Hsize & Hlast).
  assert (duplicates MD5.hexdigest Concrete.set_iter []
            [Concrete.tx "ledger:1" "2014-01-01" "5"; Concrete.tx "ledger:2" "2014-01-01" "5";
             Concrete.tx "ledger:3" "2014-01-02" "7"]
          = [(Concrete.tx "ledger:2" "2014-01-01" "5", Concrete.tx "ledger:1" "2014-01-01" "5")])
    as Hdup by (vm_compute; reflexivity).
  rewrite Hdup in HF.
  apply Forall2_cons_inv_r in HF as (error & rest & (Hentry & Hmessage & Hsource) & Hrest & ->).
  apply Forall2_nil_inv_r in Hrest as ->.
  destruct error as [src msg e]. simpl in Hentry, Hmessage, Hsource.
  subst e. injection Hsource as <-.
  assert (msg = "Duplicate entry: Tx(source='ledger:2', date='2014-01-01', amount=5) == Tx(source='ledger:1', date='2014-01-01', amount=5)")
    as -> by (rewrite Hmessage; vm_compute; reflexivity).
  exists d. split; [exact Hr|]. split; [exact Hsize|].
  rewrite Hlast. vm_compute. reflexivity.
Defined.

(** C5 on the three transactions against two others: the second
    transaction repeats the first, and each comparison raises the
    [ValueError] whose text is the error for it.  The message holds single
    quotes, so its [repr] is in double quotes. *)
Lemma comparisons_raise_iff_duplicate_witness :
  (∀ hist X, Concrete.set_iter hist X ≡ₚ elements X)
  ∧ Forall has_source
      [Concrete.tx "ledger:1" "2014-01-01" "5"; Concrete.tx "ledger:2" "2014-01-01" "5";
       Concrete.tx "ledger:3" "2014-01-02" "7"]
  ∧ Forall has_source
      [Concrete.tx "other:1" "2014-01-03" "5"; Concrete.tx "other:2" "2014-01-02" "7"]
  ∧ let text :=
      "CompareError(source='ledger:2', message="
        +:+ String Concrete.dquote
              ("Duplicate entry: Tx(source='ledger:2', date='2014-01-01', amount=5) == Tx(source='ledger:1', date='2014-01-01', amount=5)"
                 +:+ String Concrete.dquote
                       ", entry=Tx(source='ledger:2', date='2014-01-01', amount=5))") in
    Concrete.compare_entries
      [Concrete.tx "ledger:1" "2014-01-01" "5"; Concrete.tx "ledger:2" "2014-01-01" "5";
       Concrete.tx "ledger:3" "2014-01-02" "7"]
      [Concrete.tx "other:1" "2014-01-03" "5"; Concrete.tx "other:2" "2014-01-02" "7"]
    = Raise (ValueError text)
    ∧ Concrete.includes_entries
        [Concrete.tx "ledger:1" "2014-01-01" "5"; Concrete.tx "ledger:2" "2014-01-01" "5";
         Concrete.tx "ledger:3" "2014-01-02" "7"]
        [Concrete.tx "other:1" "2014-01-03" "5"; Concrete.tx "other:2" "2014-01-02" "7"]
      = Raise (ValueError text)
    ∧ Concrete.excludes_entries
        [Concrete.tx "ledger:1" "2014-01-01" "5"; Concrete.tx "ledger:2" "2014-01-01" "5";
         Concrete.tx "ledger:3" "2014-01-02" "7"]
        [Concrete.tx "other:1" "2014-01-03" "5"; Concrete.tx "other:2" "2014-01-02" "7"]
      = Raise (ValueError text).
Proof.
  split; [exact concrete_set_iter_perm|].
  split; [exact sample_entries_have_source|].
  split; [exact other_entries_have_source|].
  destruct (comparisons_raise_iff_duplicate MD5.hexdigest Concrete.set_iter
              Concrete.str_repr Concrete.date_key str_lt concrete_set_iter_perm _ _
              sample_entries_have_source other_entries_have_source)
    as (d1 & errs1 & d2 & errs2 & _ & _ & HF & _ & Hres).
  assert (duplicates MD5.hexdigest Concrete.set_iter []
            [Concrete.tx "ledger:1" "2014-01-01" "5"; Concrete.tx "ledger:2" "2014-01-01" "5";
             Concrete.tx "ledger:3" "2014-01-02" "7"]
          ++ duplicates MD5.hexdigest Concrete.set_iter []
               [Concrete.tx "other:1" "2014-01-03" "5"; Concrete.tx "other:2" "2014-01-02" "7"]
          = [(Concrete.tx "ledger:2" "2014-01-01" "5", Concrete.tx "ledger:1" "2014-01-01" "5")])
    as Hdup by (vm_compute; reflexivity).
  rewrite Hdup in HF.
  apply Forall2_cons_inv_r in HF as (error & rest & (Hentry & Hmessage & Hsource) & Hrest & E).
  apply Forall2_nil_inv_r in Hrest as ->. rewrite E in Hres.
  destruct error as [src msg e]. simpl in Hentry, Hmessage, Hsource, Hres.
  subst e. injection Hsource as <-. subst msg.
  destruct Hres as (Hc & Hi & He).
  unfold Concrete.compare_entries, Concrete.includes_entries, Concrete.excludes_entries.
  cbv zeta. rewrite Hc, Hi, He.
  repeat split; vm_compute; reflexivity.
Defined.

(** C10 on two lists that share one transaction. *)
Lemma compare_success_iff_nothing_missing_witness :
  (∀ hist X, Concrete.set_iter hist X ≡ₚ elements X)
  ∧ ∃ same missing1 missing2,
      Concrete.compare_entries
        [Concrete.tx "other:1" "2014-01-03" "5"; Concrete.tx "other:2" "2014-01-02" "7"]
        [Concrete.tx "more:7" "2014-01-02" "7"; Concrete.tx "more:8" "2014-01-04" "9"]
      = Return (same, missing1, missing2)
      ∧ (same = true ↔ missing1 = [] ∧ missing2 = []).
Proof.
  split; [exact concrete_set_iter_perm|].
  exact (compare_success_iff_nothing_missing MD5.hexdigest Concrete.set_iter
           Concrete.str_repr Concrete.date_key str_lt concrete_set_iter_perm _ _
           other_entries_NoDup more_entries_NoDup).
Defined.

(** C9 on two transactions given out of date order. *)
Lemma excludes_self_witness :
  (∀ hist X, Concrete.set_iter hist X ≡ₚ elements X)
  ∧ StrictTotal str_lt
  ∧ ∃ extra,
      Concrete.excludes_entries
        [Concrete.tx "other:1" "2014-01-03" "5"; Concrete.tx "other:2" "2014-01-02" "7"]
        [Concrete.tx "other:1" "2014-01-03" "5"; Concrete.tx "other:2" "2014-01-02" "7"]
      = Return (false, extra)
      ∧ extra ≡ₚ [Concrete.tx "other:1" "2014-01-03" "5"; Concrete.tx "other:2" "2014-01-02" "7"]
      ∧ StronglySorted (in_order Concrete.date_key str_lt) extra.
Proof.
  split; [exact concrete_set_iter_perm|]. split; [exact str_lt_strict_total|].
  refine (excludes_self MD5.hexdigest Concrete.set_iter Concrete.str_repr
            Concrete.date_key str_lt concrete_set_iter_perm _ _ other_entries_NoDup).
  discriminate.
Defined.

Example excludes_self_sample :
  Concrete.excludes_entries
    [Concrete.tx "other:1" "2014-01-03" "5"; Concrete.tx "other:2" "2014-01-02" "7"]
    [Concrete.tx "other:1" "2014-01-03" "5"; Concrete.tx "other:2" "2014-01-02" "7"]
  = Return (false, [Concrete.tx "other:2" "2014-01-02" "7"; Concrete.tx "other:1" "2014-01-03" "5"]).
Proof. vm_compute. reflexivity. Qed.

(** X1 on an [Event] and a record of another type with other field names
    and the same values. *)
Lemma names_do_not_enter_digest_witness :
  Forall2 (λ a b, (a.1 ∈ ({[ "source"; "entry"; "diff_amount" ]} : gset string)
                   ↔ b.1 ∈ ({[ "source"; "entry"; "diff_amount" ]} : gset string))
                  ∧ (a.1 ∉ ({[ "source"; "entry"; "diff_amount" ]} : gset string) → a.2 = b.2))
    (fields_of (Concrete.event "price" "USD"))
    [("source", py_text "other:9"); ("account", py_text "price"); ("comment", py_text "USD")]
  ∧ Concrete.hash_entry (Concrete.event "price" "USD")
    = Concrete.hash_entry
        (MkRecord "Note" [("source", py_text "other:9"); ("account", py_text "price");
                          ("comment", py_text "USD")]).
Proof.
  assert (Forall2 (λ a b, (a.1 ∈ ({[ "source"; "entry"; "diff_amount" ]} : gset string)
                   ↔ b.1 ∈ ({[ "source"; "entry"; "diff_amount" ]} : gset string))
                  ∧ (a.1 ∉ ({[ "source"; "entry"; "diff_amount" ]} : gset string) → a.2 = b.2))
    (fields_of (Concrete.event "price" "USD"))
    [("source", py_text "other:9"); ("account", py_text "price"); ("comment", py_text "USD")])
    as HF.
  { simpl. repeat (apply List.Forall2_cons; [split; simpl; [set_solver|]|]);
      [intros Hn; destruct Hn; set_solver|done|done|apply List.Forall2_nil]. }
  split; [exact HF|].
  exact (names_do_not_enter_digest MD5.hexdigest Concrete.set_iter
           {[ "source"; "entry"; "diff_amount" ]} (Concrete.event "price" "USD")
           (MkRecord "Note" _) HF).
Defined.

(** X2 on an [Open] directive without currencies. *)
Lemma empty_field_adds_nothing_witness :
  (∀ hist X, Concrete.set_iter hist X ≡ₚ elements X)
  ∧ Concrete.hash_entry (Concrete.open_ [])
    = Concrete.hash_entry
        (MkRecord "Open" [("source", py_text "ledger:1"); ("date", py_text "2014-01-01")]).
Proof.
  split; [exact concrete_set_iter_perm|].
  exact (empty_field_adds_nothing MD5.hexdigest Concrete.set_iter concrete_set_iter_perm
           {[ "source"; "entry"; "diff_amount" ]} "Open"
           [("source", py_text "ledger:1"); ("date", py_text "2014-01-01")] []
           "currencies" (PyList []) (or_intror (or_introl (ex_intro _ KList eq_refl)))).
Defined.

(** X3 on a transaction with two postings that differ in the ignored
    [entry] and a transaction with one of them, held in a set. *)
Lemma collection_enters_as_set_of_subdigests_witness :
  (∀ hist X, Concrete.set_iter hist X ≡ₚ elements X)
  ∧ list_to_set (subhash MD5.hexdigest Concrete.set_iter {[ "source"; "entry"; "diff_amount" ]}
                   <$> [Concrete.posting "T1" "Assets:Cash"; Concrete.posting "T2" "Assets:Cash"])
    =@{gset string}
    list_to_set (subhash MD5.hexdigest Concrete.set_iter {[ "source"; "entry"; "diff_amount" ]}
                   <$> [Concrete.posting "T3" "Assets:Cash"])
  ∧ Concrete.hash_entry (Concrete.transaction "ledger:1" "2014-01-01"
        [Concrete.posting "T1" "Assets:Cash"; Concrete.posting "T2" "Assets:Cash"])
    = Concrete.hash_entry
        (MkRecord "Transaction"
           [("source", py_text "ledger:1"); ("date", py_text "2014-01-01");
            ("postings", PySet [Concrete.posting "T3" "Assets:Cash"])]).
Proof.
  assert (list_to_set (subhash MD5.hexdigest Concrete.set_iter {[ "source"; "entry"; "diff_amount" ]}
                   <$> [Concrete.posting "T1" "Assets:Cash"; Concrete.posting "T2" "Assets:Cash"])
    =@{gset string}
    list_to_set (subhash MD5.hexdigest Concrete.set_iter {[ "source"; "entry"; "diff_amount" ]}
                   <$> [Concrete.posting "T3" "Assets:Cash"])) as E.
  { vm_compute. reflexivity. }
  split; [exact concrete_set_iter_perm|]. split; [exact E|].
  exact (collection_enters_as_set_of_subdigests MD5.hexdigest Concrete.set_iter
           concrete_set_iter_perm {[ "source"; "entry"; "diff_amount" ]} "Transaction"
           [("source", py_text "ledger:1"); ("date", py_text "2014-01-01")] []
           "postings" KList KSet _ _ E).
Defined.

(** X4 on the three transactions. *)
Lemma index_maps_digests_to_entries_witness :
  ∃ entry_hash_dict errors,
    Concrete.hash_entries
      [Concrete.tx "ledger:1" "2014-01-01" "5"; Concrete.tx "ledger:2" "2014-01-01" "5";
       Concrete.tx "ledger:3" "2014-01-02" "7"]
    = Return (entry_hash_dict, errors)
    ∧ dom entry_hash_dict
      = digests MD5.hexdigest Concrete.set_iter
          [Concrete.tx "ledger:1" "2014-01-01" "5"; Concrete.tx "ledger:2" "2014-01-01" "5";
           Concrete.tx "ledger:3" "2014-01-02" "7"].
Proof.
  destruct (Concrete.hash_entries
      [Concrete.tx "ledger:1" "2014-01-01" "5"; Concrete.tx "ledger:2" "2014-01-01" "5";
       Concrete.tx "ledger:3" "2014-01-02" "7"]) as [[d errs]|e] eqn:Hr.
  - exists d, errs. split; [reflexivity|].
    exact (proj1 (index_maps_digests_to_entries MD5.hexdigest Concrete.set_iter _ d errs Hr)).
  - exfalso. vm_compute in Hr. discriminate Hr.
Defined.

(** X5 on prices, which have no [source]: a list that holds the same price
    twice is not indexed, a list of two different prices is. *)
Lemma source_is_read_from_duplicates_only_witness :
  Concrete.hash_entries
    [Concrete.price "2014-01-01" "5"; Concrete.price "2014-01-01" "5"]
  = Raise (AttributeError "source")
  ∧ ∃ entry_hash_dict,
      Concrete.hash_entries
        [Concrete.price "2014-01-01" "5"; Concrete.price "2014-01-02" "5"]
      = Return (entry_hash_dict, [])
      ∧ size entry_hash_dict = 2.
Proof.
  split.
  - apply (proj1 (source_is_read_from_duplicates_only MD5.hexdigest Concrete.set_iter _)).
    assert (duplicates MD5.hexdigest Concrete.set_iter []
              [Concrete.price "2014-01-01" "5"; Concrete.price "2014-01-01" "5"]
            = [(Concrete.price "2014-01-01" "5", Concrete.price "2014-01-01" "5")])
      as -> by (vm_compute; reflexivity).
    apply Exists_cons_hd. intros [src Hsrc]. discriminate Hsrc.
  - apply (proj2 (source_is_read_from_duplicates_only MD5.hexdigest Concrete.set_iter
                    [Concrete.price "2014-01-01" "5"; Concrete.price "2014-01-02" "5"])).
    apply (bool_decide_unpack _). vm_compute. exact I.
Defined.

(** X6 on two transactions that differ in their [source]. *)
Lemma entries_equal_up_to_ignored_fields_collide_witness :
  same_except_ignored {[ "source"; "entry"; "diff_amount" ]}
    (fields_of (Concrete.tx "ledger:1" "2014-01-01" "5"))
    (fields_of (Concrete.tx "ledger:2" "2014-01-01" "5"))
  ∧ lookup_field "source" (fields_of (Concrete.tx "ledger:2" "2014-01-01" "5"))
    = Some (py_text "ledger:2")
  ∧ Concrete.hash_entries
      [Concrete.tx "ledger:1" "2014-01-01" "5"; Concrete.tx "ledger:2" "2014-01-01" "5"]
    = Return ({[ Concrete.hash_entry (Concrete.tx "ledger:2" "2014-01-01" "5")
                   := Concrete.tx "ledger:2" "2014-01-01" "5" ]},
              [CompareError_ (py_text "ledger:2")
                 "Duplicate entry: Tx(source='ledger:2', date='2014-01-01', amount=5) == Tx(source='ledger:1', date='2014-01-01', amount=5)"
                 (Concrete.tx "ledger:2" "2014-01-01" "5")]).
Proof.
  assert (same_except_ignored {[ "source"; "entry"; "diff_amount" ]}
    (fields_of (Concrete.tx "ledger:1" "2014-01-01" "5"))
    (fields_of (Concrete.tx "ledger:2" "2014-01-01" "5"))) as HF.
  { unfold same_except_ignored. simpl. same_fields. }
  split; [exact HF|]. split; [reflexivity|].
  unfold Concrete.hash_entries.
  rewrite (entries_equal_up_to_ignored_fields_collide MD5.hexdigest Concrete.set_iter
             _ _ _ HF eq_refl).
  do 3 f_equal.
Defined.

(** X7 on two lists that share one transaction. *)
Lemma compare_entries_returns_witness :
  (∀ hist X, Concrete.set_iter hist X ≡ₚ elements X) ∧ StrictTotal str_lt
  ∧ ∃ same missing1 missing2,
      Concrete.compare_entries
        [Concrete.tx "other:1" "2014-01-03" "5"; Concrete.tx "other:2" "2014-01-02" "7"]
        [Concrete.tx "more:7" "2014-01-02" "7"; Concrete.tx "more:8" "2014-01-04" "9"]
      = Return (same, missing1, missing2)
      ∧ StronglySorted (in_order Concrete.date_key str_lt) missing1.
Proof.
  split; [exact concrete_set_iter_perm|]. split; [exact str_lt_strict_total|].
  destruct (compare_entries_returns MD5.hexdigest Concrete.set_iter Concrete.str_repr
              Concrete.date_key str_lt concrete_set_iter_perm _ _
              other_entries_NoDup more_entries_NoDup)
    as (same & m1 & m2 & Hr & _ & _ & _ & Hs & _).
  exists same, m1, m2. split; [exact Hr|exact Hs].
Defined.

(** X8 on the same two lists. *)
Lemma includes_entries_returns_witness :
  (∀ hist X, Concrete.set_iter hist X ≡ₚ elements X) ∧ StrictTotal str_lt
  ∧ ∃ includes_ missing,
      Concrete.includes_entries
        [Concrete.tx "other:1" "2014-01-03" "5"; Concrete.tx "other:2" "2014-01-02" "7"]
        [Concrete.tx "more:7" "2014-01-02" "7"; Concrete.tx "more:8" "2014-01-04" "9"]
      = Return (includes_, missing)
      ∧ (includes_ = true ↔ missing = []).
Proof.
  split; [exact concrete_set_iter_perm|]. split; [exact str_lt_strict_total|].
  destruct (includes_entries_returns MD5.hexdigest Concrete.set_iter Concrete.str_repr
              Concrete.date_key str_lt concrete_set_iter_perm _ _
              other_entries_NoDup more_entries_NoDup)
    as (inc & m & Hr & _ & Hi & _).
  exists inc, m. split; [exact Hr|exact Hi].
Defined.

(** X9 on the same two lists. *)
Lemma excludes_entries_returns_witness :
  (∀ hist X, Concrete.set_iter hist X ≡ₚ elements X) ∧ StrictTotal str_lt
  ∧ ∃ excludes_ extra,
      Concrete.excludes_entries
        [Concrete.tx "other:1" "2014-01-03" "5"; Concrete.tx "other:2" "2014-01-02" "7"]
        [Concrete.tx "more:7" "2014-01-02" "7"; Concrete.tx "more:8" "2014-01-04" "9"]
      = Return (excludes_, extra)
      ∧ (excludes_ = true ↔ extra = []).
Proof.
  split; [exact concrete_set_iter_perm|]. split; [exact str_lt_strict_total|].
  destruct (excludes_entries_returns MD5.hexdigest Concrete.set_iter Concrete.str_repr
              Concrete.date_key str_lt concrete_set_iter_perm _ _
              other_entries_NoDup more_entries_NoDup)
    as (exc & x & Hr & _ & Hx & _).
  exists exc, x. split; [exact Hr|exact Hx].
Defined.

(** The two other transactions as another file has them. *)
Lemma moved_entries_same_fields :
  Forall2 (λ a b, same_except_ignored {[ "source"; "entry"; "diff_amount" ]}
                    (fields_of a) (fields_of b))
    [Concrete.tx "other:1" "2014-01-03" "5"; Concrete.tx "other:2" "2014-01-02" "7"]
    [Concrete.tx "moved:8" "2014-01-03" "5"; Concrete.tx "moved:9" "2014-01-02" "7"].
Proof.
  repeat (apply List.Forall2_cons; [unfold same_except_ignored; simpl; same_fields|]).
  apply List.Forall2_nil.
Qed.

(** X10 on two transactions read from two files. *)
Lemma comparison_disregards_ignored_fields_witness :
  (∀ hist X, Concrete.set_iter hist X ≡ₚ elements X)
  ∧ Concrete.compare_entries
      [Concrete.tx "other:1" "2014-01-03" "5"; Concrete.tx "other:2" "2014-01-02" "7"]
      [Concrete.tx "moved:8" "2014-01-03" "5"; Concrete.tx "moved:9" "2014-01-02" "7"]
    = Return (true, [], []).
Proof.
  split; [exact concrete_set_iter_perm|].
  exact (proj1 (comparison_disregards_ignored_fields MD5.hexdigest Concrete.set_iter
                  Concrete.str_repr Concrete.date_key str_lt concrete_set_iter_perm _ _
                  moved_entries_same_fields other_entries_NoDup)).
Defined.

Lemma one_entry_NoDup :
  NoDup (hash_entry MD5.hexdigest Concrete.set_iter
           <$> [Concrete.tx "other:2" "2014-01-02" "7"]).
Proof. apply (bool_decide_unpack _). vm_compute. exact I. Qed.

Lemma one_entry_subseteq :
  [Concrete.tx "other:2" "2014-01-02" "7"]
  ⊆ [Concrete.tx "other:1" "2014-01-03" "5"; Concrete.tx "other:2" "2014-01-02" "7"].
Proof. intros e ->%list_elem_of_singleton. right. left. Qed.

(** X11 on one of the two other transactions. *)
Lemma includes_entries_of_sublist_witness :
  (∀ hist X, Concrete.set_iter hist X ≡ₚ elements X)
  ∧ [Concrete.tx "other:2" "2014-01-02" "7"]
    ⊆ [Concrete.tx "other:1" "2014-01-03" "5"; Concrete.tx "other:2" "2014-01-02" "7"]
  ∧ Concrete.includes_entries
      [Concrete.tx "other:2" "2014-01-02" "7"]
      [Concrete.tx "other:1" "2014-01-03" "5"; Concrete.tx "other:2" "2014-01-02" "7"]
    = Return (true, []).
Proof.
  split; [exact concrete_set_iter_perm|]. split; [exact one_entry_subseteq|].
  exact (includes_entries_of_sublist MD5.hexdigest Concrete.set_iter Concrete.str_repr
           Concrete.date_key str_lt concrete_set_iter_perm _ _
           one_entry_NoDup other_entries_NoDup one_entry_subseteq).
Defined.

(** X12 on the two lists that share one transaction. *)
Lemma missing_and_extra_partition_witness :
  (∀ hist X, Concrete.set_iter hist X ≡ₚ elements X)
  ∧ ∃ includes_ missing excludes_ extra,
      Concrete.includes_entries
        [Concrete.tx "other:1" "2014-01-03" "5"; Concrete.tx "other:2" "2014-01-02" "7"]
        [Concrete.tx "more:7" "2014-01-02" "7"; Concrete.tx "more:8" "2014-01-04" "9"]
      = Return (includes_, missing)
      ∧ Concrete.excludes_entries
          [Concrete.tx "other:1" "2014-01-03" "5"; Concrete.tx "other:2" "2014-01-02" "7"]
          [Concrete.tx "more:7" "2014-01-02" "7"; Concrete.tx "more:8" "2014-01-04" "9"]
        = Return (excludes_, extra)
      ∧ missing ++ extra
        ≡ₚ [Concrete.tx "other:1" "2014-01-03" "5"; Concrete.tx "other:2" "2014-01-02" "7"].
Proof.
  split; [exact concrete_set_iter_perm|].
  exact (missing_and_extra_partition MD5.hexdigest Concrete.set_iter Concrete.str_repr
           Concrete.date_key str_lt concrete_set_iter_perm _ _
           other_entries_NoDup more_entries_NoDup).
Defined.

(** X13 on the three transactions, two of them duplicates. *)
Lemma comparisons_never_fail_internally_witness :
  (∀ hist X, Concrete.set_iter hist X ≡ₚ elements X)
  ∧ ∃ e,
      Concrete.compare_entries
        [Concrete.tx "ledger:1" "2014-01-01" "5"; Concrete.tx "ledger:2" "2014-01-01" "5";
         Concrete.tx "ledger:3" "2014-01-02" "7"]
        [Concrete.tx "other:1" "2014-01-03" "5"; Concrete.tx "other:2" "2014-01-02" "7"]
      = Raise e
      ∧ (∀ key, e ≠ KeyError key) ∧ e ≠ IndexError ∧ (∀ sizes, e ≠ AssertionError sizes).
Proof.
  split; [exact concrete_set_iter_perm|].
  destruct (Concrete.compare_entries
        [Concrete.tx "ledger:1" "2014-01-01" "5"; Concrete.tx "ledger:2" "2014-01-01" "5";
         Concrete.tx "ledger:3" "2014-01-02" "7"]
        [Concrete.tx "other:1" "2014-01-03" "5"; Concrete.tx "other:2" "2014-01-02" "7"])
    as [r|e] eqn:Hr.
  - exfalso. vm_compute in Hr. discriminate Hr.
  - exists e. split; [reflexivity|].
    exact (comparisons_never_fail_internally MD5.hexdigest Concrete.set_iter
             Concrete.str_repr Concrete.date_key str_lt concrete_set_iter_perm _ _ e
             (or_introl Hr)).
Defined.

(** X14 on the two lists that share one transaction. *)
Lemma compare_entries_symmetric_witness :
  ∃ same missing1 missing2,
    Concrete.compare_entries
      [Concrete.tx "other:1" "2014-01-03" "5"; Concrete.tx "other:2" "2014-01-02" "7"]
      [Concrete.tx "more:7" "2014-01-02" "7"; Concrete.tx "more:8" "2014-01-04" "9"]
    = Return (same, missing1, missing2)
    ∧ Concrete.compare_entries
        [Concrete.tx "more:7" "2014-01-02" "7"; Concrete.tx "more:8" "2014-01-04" "9"]
        [Concrete.tx "other:1" "2014-01-03" "5"; Concrete.tx "other:2" "2014-01-02" "7"]
      = Return (same, missing2, missing1).
Proof.
  destruct (Concrete.compare_entries
      [Concrete.tx "other:1" "2014-01-03" "5"; Concrete.tx "other:2" "2014-01-02" "7"]
      [Concrete.tx "more:7" "2014-01-02" "7"; Concrete.tx "more:8" "2014-01-04" "9"])
    as [[[same m1] m2]|e] eqn:Hr.
  - exists same, m1, m2. split; [reflexivity|].
    exact (compare_entries_symmetric MD5.hexdigest Concrete.set_iter Concrete.str_repr
             Concrete.date_key str_lt _ _ same m1 m2 Hr).
  - exfalso. vm_compute in Hr. discriminate Hr.
Defined.

(** X15 on the same two lists. *)
Lemma compare_is_mutual_inclusion_witness :
  ∃ same missing1 missing2 includes12 includes21,
    Concrete.compare_entries
      [Concrete.tx "other:1" "2014-01-03" "5"; Concrete.tx "other:2" "2014-01-02" "7"]
      [Concrete.tx "more:7" "2014-01-02" "7"; Concrete.tx "more:8" "2014-01-04" "9"]
    = Return (same, missing1, missing2)
    ∧ Concrete.includes_entries
        [Concrete.tx "other:1" "2014-01-03" "5"; Concrete.tx "other:2" "2014-01-02" "7"]
        [Concrete.tx "more:7" "2014-01-02" "7"; Concrete.tx "more:8" "2014-01-04" "9"]
      = Return (includes12, missing1)
    ∧ Concrete.includes_entries
        [Concrete.tx "more:7" "2014-01-02" "7"; Concrete.tx "more:8" "2014-01-04" "9"]
        [Concrete.tx "other:1" "2014-01-03" "5"; Concrete.tx "other:2" "2014-01-02" "7"]
      = Return (includes21, missing2)
    ∧ same = includes12 && includes21.
Proof.
  destruct (Concrete.compare_entries
      [Concrete.tx "other:1" "2014-01-03" "5"; Concrete.tx "other:2" "2014-01-02" "7"]
      [Concrete.tx "more:7" "2014-01-02" "7"; Concrete.tx "more:8" "2014-01-04" "9"])
    as [[[same m1] m2]|e] eqn:Hr.
  - destruct (compare_is_mutual_inclusion MD5.hexdigest Concrete.set_iter Concrete.str_repr
                Concrete.date_key str_lt _ _ same m1 m2 Hr) as (i12 & i21 & H12 & H21 & Hs).
    exists same, m1, m2, i12, i21. split; [reflexivity|]. split; [exact H12|].
    split; [exact H21|exact Hs].
  - exfalso. vm_compute in Hr. discriminate Hr.
Defined.
